(** * HPE copyright header checker: a shallow embedding of
    [hpe-copyright/scripts/copyright_check.py] and its properties.

    Conventions of the embedding.

    - A Python [str] is a Rocq [string]; a character of type [ascii] stands
      for the code point of the same number (U+0000 to U+00FF).  The classes
      [\s] and [\d] of Python's [re] are given for exactly these code points.
    - A Python [int] is a [Z].
    - A [pathlib] path is the list of its [parts]; the system is POSIX.
    - The file system is an explicit store threaded through the functions
      that open files; an exception that escapes a function is a value of
      type [exn] returned in place of the result. *)

From Stdlib Require Import String Ascii List ZArith NArith Lia Bool DecimalString.
Import ListNotations.
Local Open Scope string_scope.

(** ** Python string primitives *)

Module PyStr.

(** The line feed, ["\n"]. *)
Definition nl : ascii := "010"%char.
Definition NL : string := String nl "".

(** [c in s] for a one-character [c]. *)
Fixpoint contains (c : ascii) (s : string) : bool :=
  match s with
  | "" => false
  | String a s' => Ascii.eqb a c || contains c s'
  end.

(** [s.startswith(p)]. *)
Definition startswith (s p : string) : bool := String.prefix p s.

(** [s.endswith(suf)]. *)
Fixpoint endswith (s suf : string) : bool :=
  String.eqb s suf ||
  match s with
  | "" => false
  | String _ s' => endswith s' suf
  end.

(** [s.rstrip(c)] for a one-character [c]. *)
Fixpoint rstrip (c : ascii) (s : string) : string :=
  match s with
  | "" => ""
  | String a s' =>
      match rstrip c s' with
      | "" => if Ascii.eqb a c then "" else String a ""
      | r => String a r
      end
  end.

(** [s.split(sep)] for a one-character [sep]: never the empty list. *)
Fixpoint split (sep : ascii) (s : string) : list string :=
  match s with
  | "" => [""]
  | String a s' =>
      if Ascii.eqb a sep then "" :: split sep s'
      else match split sep s' with
           | h :: t => String a h :: t
           | [] => [String a ""]
           end
  end.

(** [sep.join(l)]. *)
Definition join (sep : string) (l : list string) : string := String.concat sep l.

(** [s.rfind(c)]: the index of the last [c], [None] for Python's [-1]. *)
Fixpoint rfind (c : ascii) (s : string) : option nat :=
  match s with
  | "" => None
  | String a s' =>
      match rfind c s' with
      | Some i => Some (S i)
      | None => if Ascii.eqb a c then Some 0 else None
      end
  end.

(** [s[i:]]. *)
Fixpoint drop (i : nat) (s : string) : string :=
  match i, s with
  | O, _ => s
  | S i', String _ s' => drop i' s'
  | S _, "" => ""
  end.

(** [c.lower()] on U+0000..U+00FF: A-Z, and the Latin-1 capitals
    U+00C0..U+00DE except the multiplication sign U+00D7. *)
Definition lower_char (a : ascii) : ascii :=
  let n := N_of_ascii a in
  if ((65 <=? n) && (n <=? 90))%N then ascii_of_N (n + 32)
  else if ((192 <=? n) && (n <=? 222) && negb (n =? 215))%N then ascii_of_N (n + 32)
  else a.

Fixpoint lower (s : string) : string :=
  match s with
  | "" => ""
  | String a s' => String (lower_char a) (lower s')
  end.

(** [str(n)] for an [int]. *)
Definition str (n : Z) : string := NilZero.string_of_int (Z.to_int n).

(** The value of a decimal digit, and [int(s)] for a string of digits. *)
Definition digit_value (a : ascii) : Z := (Z.of_N (N_of_ascii a) - 48)%Z.

Definition int_of_digits (ds : list ascii) : Z :=
  fold_left (fun acc d => (10 * acc + digit_value d)%Z) ds 0%Z.

(** [template.format(name=value, ...)] for a template whose replacement fields are
    plain names ([{name}]).  The second argument is the name of the field
    being read, if any.  Python raises [KeyError] on a name that is not
    given; the program always supplies the names of its template, and the
    model renders a missing one as the empty string. *)
Fixpoint kwarg (kwargs : list (string * string)) (name : string) : string :=
  match kwargs with
  | [] => ""
  | (k, v) :: rest => if String.eqb k name then v else kwarg rest name
  end.

Fixpoint format_from (template : string) (field : option string)
         (kwargs : list (string * string)) : string :=
  match template with
  | "" => ""
  | String a t =>
      match field with
      | None =>
          if Ascii.eqb a "{" then format_from t (Some "") kwargs
          else String a (format_from t None kwargs)
      | Some name =>
          if Ascii.eqb a "}" then kwarg kwargs name ++ format_from t None kwargs
          else format_from t (Some (name ++ String a "")) kwargs
      end
  end.

Definition format (template : string) (kwargs : list (string * string)) : string :=
  format_from template None kwargs.

End PyStr.

(** ** Dictionaries written as literals *)

Module PyDict.

(** A dict display [{k1: v1, k2: v2, ...}] is kept as the list of its
    items in source order; a key written twice keeps its last value. *)
Definition dict (V : Type) := list (string * V).

Definition get {V : Type} (d : dict V) (k : string) : option V :=
  fold_left (fun acc kv => if String.eqb (fst kv) k then Some (snd kv) else acc) d None.

Definition get_default {V : Type} (d : dict V) (k : string) (default : V) : V :=
  match get d k with
  | Some v => v
  | None => default
  end.

End PyDict.

(** ** The regular expression of the header *)

Module Re.

(** [\s] of a [str] pattern, on U+0000..U+00FF: TAB, LF, VT, FF, CR,
    FS, GS, RS, US, SPACE, NEL (U+0085) and NBSP (U+00A0). *)
Definition is_space (a : ascii) : bool :=
  let n := N_of_ascii a in
  (((9 <=? n) && (n <=? 13)) || ((28 <=? n) && (n <=? 32))
   || (n =? 133) || (n =? 160))%N.

(** [\d] of a [str] pattern, on U+0000..U+00FF: 0-9. *)
Definition is_digit (a : ascii) : bool :=
  let n := N_of_ascii a in ((48 <=? n) && (n <=? 57))%N.

(** The pieces the pattern is made of: a literal character, [\s+], and
    one [\d] inside a capturing group. *)
Inductive elem : Type :=
| Lit (c : ascii)
| Ws1
| Dig.

Definition captures := list ascii.

(** The tail of a greedy [\s+] after its first character: take as many
    white-space characters as there are, and give them back one at a
    time while the rest of the pattern [k] fails. *)
Fixpoint greedy_ws (k : string -> option captures) (s : string) : option captures :=
  match s with
  | String a s' =>
      if is_space a then
        match greedy_ws k s' with
        | Some r => Some r
        | None => k s
        end
      else k s
  | "" => k s
  end.

(** Match the pattern at the start of [s]; the result lists the
    characters captured by the groups, in order. *)
Fixpoint match_here (p : list elem) : string -> option captures :=
  match p with
  | [] => fun _ => Some []
  | e :: p' =>
      let k := match_here p' in
      match e with
      | Lit c => fun s =>
          match s with
          | String a s' => if Ascii.eqb a c then k s' else None
          | "" => None
          end
      | Dig => fun s =>
          match s with
          | String a s' => if is_digit a then option_map (cons a) (k s') else None
          | "" => None
          end
      | Ws1 => fun s =>
          match s with
          | String a s' => if is_space a then greedy_ws k s' else None
          | "" => None
          end
      end
  end.

(** [pattern.search(s)]: the match at the leftmost position that has one. *)
Fixpoint search (p : list elem) (s : string) : option captures :=
  match match_here p s with
  | Some r => Some r
  | None =>
      match s with
      | String _ s' => search p s'
      | "" => None
      end
  end.

Definition lits (s : string) : list elem := map Lit (list_ascii_of_string s).

End Re.

(** ** Shell-style wild cards: Python's [fnmatch] on a POSIX system

    [fnmatch.fnmatch(name, pat)] normalises the case of both arguments with
    [os.path.normcase], the identity on POSIX, translates [pat] into a
    regular expression and matches the whole of [name] against it: [*] is
    any run of characters (["/"] included), [?] any one character,
    [[seq]] and [[!seq]] a character class, anything else itself. *)

Module Fnmatch.

Inductive item : Type :=
| Single (c : ascii)
| Range (lo hi : ascii).

Inductive tok : Type :=
| Star
| AnyChar
| Class (negated : bool) (items : list item)
| Char (c : ascii).

(** The characters up to the first ["]"], and what follows it. *)
Fixpoint find_close (s : list ascii) : option (list ascii * list ascii) :=
  match s with
  | [] => None
  | c :: r =>
      if Ascii.eqb c "]" then Some ([], r)
      else match find_close r with
           | Some (body, rest) => Some (c :: body, rest)
           | None => None
           end
  end.

(** After a ["["]: a leading ["!"] and then a leading ["]"] belong to
    the class; the class ends at the next ["]"].  [None] when there is
    none, and the ["["] then stands for itself. *)
Definition bracket (s : list ascii) : option (list ascii * list ascii) :=
  let (bang, s1) :=
    match s with
    | c :: r => if Ascii.eqb c "!" then ([c], r) else ([], s)
    | [] => ([], s)
    end in
  let (close, s2) :=
    match s1 with
    | c :: r => if Ascii.eqb c "]" then ([c], r) else ([], s1)
    | [] => ([], s1)
    end in
  match find_close s2 with
  | Some (body, rest) => Some ((bang ++ close ++ body)%list, rest)
  | None => None
  end.

(** The members of a class: [x-y] is a range when a character follows
    the hyphen, every other character stands for itself (a backslash
    too: there is no quoting). *)
Fixpoint class_items (stuff : list ascii) : list item :=
  match stuff with
  | [] => []
  | c :: rest =>
      match rest with
      | h :: d :: rest' =>
          if Ascii.eqb h "-" then Range c d :: class_items rest'
          else Single c :: class_items rest
      | _ => Single c :: class_items rest
      end
  end.

Definition class_of (stuff : list ascii) : tok :=
  match stuff with
  | c :: r => if Ascii.eqb c "!" then Class true (class_items r)
              else Class false (class_items stuff)
  | [] => Class false []
  end.

(** [fnmatch.translate]; [fuel] bounds the number of tokens. *)
Fixpoint translate_from (fuel : nat) (pat : list ascii) : list tok :=
  match fuel with
  | O => []
  | S fuel' =>
      match pat with
      | [] => []
      | c :: r =>
          if Ascii.eqb c "*" then Star :: translate_from fuel' r
          else if Ascii.eqb c "?" then AnyChar :: translate_from fuel' r
          else if Ascii.eqb c "[" then
            match bracket r with
            | Some (stuff, rest) => class_of stuff :: translate_from fuel' rest
            | None => Char c :: translate_from fuel' r
            end
          else Char c :: translate_from fuel' r
      end
  end.

Definition translate (pat : string) : list tok :=
  translate_from (String.length pat) (list_ascii_of_string pat).

(** A range with its bounds out of order has no member. *)
Definition item_match (x : ascii) (i : item) : bool :=
  match i with
  | Single c => Ascii.eqb x c
  | Range lo hi => ((N_of_ascii lo <=? N_of_ascii x) && (N_of_ascii x <=? N_of_ascii hi))%N
  end.

(** Match the whole of the name against the tokens. *)
Fixpoint glob (toks : list tok) : string -> bool :=
  match toks with
  | [] => fun s => match s with "" => true | _ => false end
  | t :: toks' =>
      let k := glob toks' in
      match t with
      | Star =>
          fix star (s : string) : bool :=
            k s || match s with
                   | "" => false
                   | String _ s' => star s'
                   end
      | AnyChar => fun s =>
          match s with
          | "" => false
          | String _ s' => k s'
          end
      | Class negated items => fun s =>
          match s with
          | "" => false
          | String x s' => xorb negated (existsb (item_match x) items) && k s'
          end
      | Char c => fun s =>
          match s with
          | "" => false
          | String x s' => Ascii.eqb x c && k s'
          end
      end
  end.

Definition fnmatch (name pat : string) : bool := glob (translate pat) name.

End Fnmatch.

(** ** Paths: [pathlib.PurePosixPath] as the list of its parts

    The parts of an absolute path start with the anchor ["/"]; no other part
    is empty or contains a ["/"]. *)

Module PathLib.

Definition Path := list string.

Definition path_eqb (p q : Path) : bool :=
  if list_eq_dec string_dec p q then true else false.

(** [p.relative_to(root)]; [None] is Python's [ValueError]. *)
Fixpoint relative_to (p root : Path) {struct root} : option Path :=
  match root with
  | [] => Some p
  | r :: root' =>
      match p with
      | x :: p' => if String.eqb x r then relative_to p' root' else None
      | [] => None
      end
  end.

(** [str(p)]. *)
Definition str (p : Path) : string :=
  match p with
  | [] => "."
  | x :: rest => if String.eqb x "/" then "/" ++ PyStr.join "/" rest
                 else PyStr.join "/" p
  end.

(** [p.name]: the last part, the anchor excepted. *)
Definition name (p : Path) : string :=
  let n := last p "" in
  if String.eqb n "/" then "" else n.

(** [p.suffix]: the name from its last dot on, when that dot is neither
    the first nor the last character of the name. *)
Definition suffix (p : Path) : string :=
  let name := name p in
  match PyStr.rfind "." name with
  | Some i =>
      if Nat.ltb 0 i && Nat.ltb i (String.length name - 1) then PyStr.drop i name else ""
  | None => ""
  end.

(** The order of paths used by [sorted]: part by part, each part by code
    point. *)
Definition path_leb (p q : Path) : bool :=
  match list_compare String.compare p q with
  | Gt => false
  | _ => true
  end.

Fixpoint insert_sorted (p : Path) (l : list Path) : list Path :=
  match l with
  | [] => [p]
  | q :: l' => if path_leb p q then p :: l else q :: insert_sorted p l'
  end.

(** [sorted(l)]; as Python's, the sort is stable. *)
Definition sorted (l : list Path) : list Path :=
  fold_right insert_sorted [] l.

End PathLib.

(** ** The file system and the exceptions of the program

    The store holds one node for each path.  Two things of a real file
    system are outside it: a file reached under two paths (hard or
    symbolic links), and an entry that cannot be examined, for which
    [Path.is_file] raises instead of answering. *)

Module Sys.

Import PathLib.

Inductive exn : Type :=
| UnicodeDecodeError
| PermissionError
| FileNotFoundError
| IsADirectoryError
| IndexError
| ValueError.

(** What a file holds: text as [read()] returns it from a file opened
    with [encoding="utf-8"] (decoded, line endings already translated by
    the text layer), or bytes that are not valid UTF-8. *)
Inductive file_data : Type :=
| Text (content : string)
| Undecodable.

Record file : Type := mkFile {
  data : file_data;
  readable : bool;
  writable : bool
}.

Inductive node : Type :=
| Dir
| File (f : file).

(** Every attempt to open a file is recorded. *)
Inductive event : Type :=
| OpenForRead (p : Path)
| OpenForWrite (p : Path).

Record World : Type := mkWorld {
  nodes : list (Path * node);
  trace : list event
}.

Inductive outcome (A : Type) : Type :=
| Return (a : A)
| Raise (e : exn).
Arguments Return {A} a.
Arguments Raise {A} e.

(** A computation reads and changes the world and returns or raises. *)
Definition M (A : Type) : Type := World -> outcome A * World.

Definition ret {A : Type} (a : A) : M A := fun w => (Return a, w).

Definition raise {A : Type} (e : exn) : M A := fun w => (Raise e, w).

Definition bind {A B : Type} (m : M A) (f : A -> M B) : M B :=
  fun w =>
    match m w with
    | (Return a, w') => f a w'
    | (Raise e, w') => (Raise e, w')
    end.

(** [try: m  except handled: h]. *)
Definition try_except {A : Type} (m : M A) (handled : exn -> bool) (h : exn -> M A) : M A :=
  fun w =>
    match m w with
    | (Raise e, w') => if handled e then h e w' else (Raise e, w')
    | r => r
    end.

Fixpoint lookup (p : Path) (l : list (Path * node)) : option node :=
  match l with
  | [] => None
  | (q, n) :: l' => if path_eqb q p then Some n else lookup p l'
  end.

Fixpoint store (p : Path) (n : node) (l : list (Path * node)) : list (Path * node) :=
  match l with
  | [] => [(p, n)]
  | (q, m) :: l' => if path_eqb q p then (q, n) :: l' else (q, m) :: store p n l'
  end.

Definition log (e : event) (w : World) : World :=
  mkWorld (nodes w) (trace w ++ [e]).

(** [with open(p, encoding="utf-8") as f: f.read()]. *)
Definition read_text (p : Path) : M string :=
  fun w =>
    let w' := log (OpenForRead p) w in
    match lookup p (nodes w) with
    | None => (Raise FileNotFoundError, w')
    | Some Dir => (Raise IsADirectoryError, w')
    | Some (File f) =>
        if readable f then
          match data f with
          | Text content => (Return content, w')
          | Undecodable => (Raise UnicodeDecodeError, w')
          end
        else (Raise PermissionError, w')
    end.

(** [with open(p, "w", encoding="utf-8") as f: f.write(content)]. *)
Definition write_text (p : Path) (content : string) : M unit :=
  fun w =>
    let w' := log (OpenForWrite p) w in
    match lookup p (nodes w) with
    | None =>
        (Return tt, mkWorld (store p (File (mkFile (Text content) true true)) (nodes w'))
                            (trace w'))
    | Some Dir => (Raise IsADirectoryError, w')
    | Some (File f) =>
        if writable f then
          (Return tt, mkWorld (store p (File (mkFile (Text content) (readable f) (writable f))) (nodes w'))
                              (trace w'))
        else (Raise PermissionError, w')
    end.

(** [root.rglob("*")]: every entry below [root]. *)
Definition below (root p : Path) : bool :=
  match relative_to p root with
  | Some (_ :: _) => true
  | _ => false
  end.

Definition rglob (root : Path) (w : World) : list Path :=
  filter (below root) (map fst (nodes w)).

Definition is_file (p : Path) (w : World) : bool :=
  match lookup p (nodes w) with
  | Some (File _) => true
  | _ => false
  end.

(** The text of a file, when it has one. *)
Definition content_of (p : Path) (w : World) : option string :=
  match lookup p (nodes w) with
  | Some (File f) => match data f with Text c => Some c | Undecodable => None end
  | _ => None
  end.

End Sys.

Notation "x <- m ;; k" := (Sys.bind m (fun x => k))
  (at level 61, m at next level, right associativity).

(** ** The program *)

Import PyStr PathLib Sys.

Definition COPYRIGHT_TEMPLATE : string :=
  "Copyright {start_year}-{end_year} Hewlett Packard Enterprise Development LP".

(** [Copyright\s+(\d{4})-(\d{4})\s+Hewlett\s+Packard\s+Enterprise\s+Development\s+LP] *)
Definition COPYRIGHT_PATTERN : list Re.elem :=
  (Re.lits "Copyright" ++ [Re.Ws1]
   ++ [Re.Dig; Re.Dig; Re.Dig; Re.Dig] ++ Re.lits "-"
   ++ [Re.Dig; Re.Dig; Re.Dig; Re.Dig] ++ [Re.Ws1]
   ++ Re.lits "Hewlett" ++ [Re.Ws1]
   ++ Re.lits "Packard" ++ [Re.Ws1]
   ++ Re.lits "Enterprise" ++ [Re.Ws1]
   ++ Re.lits "Development" ++ [Re.Ws1]
   ++ Re.lits "LP")%list.

(** [COPYRIGHT_PATTERN.search(line)] with [int(match.group(1))] and
    [int(match.group(2))]. *)
Definition search_years (line : string) : option (Z * Z) :=
  match Re.search COPYRIGHT_PATTERN line with
  | Some [a1; a2; a3; a4; b1; b2; b3; b4] =>
      Some (int_of_digits [a1; a2; a3; a4], int_of_digits [b1; b2; b3; b4])
  | _ => None
  end.

Definition COMMENT_SYNTAX : PyDict.dict string :=
  [ (".py", "#"); (".sh", "#"); (".bash", "#"); (".zsh", "#"); (".rb", "#");
    (".pl", "#"); (".pm", "#"); (".r", "#"); (".R", "#"); (".jl", "#");
    (".coffee", "#");
    (".js", "//"); (".ts", "//"); (".jsx", "//"); (".tsx", "//"); (".go", "//");
    (".c", "//"); (".cpp", "//"); (".cc", "//"); (".cxx", "//"); (".h", "//");
    (".hpp", "//"); (".hxx", "//"); (".cs", "//"); (".java", "//"); (".kt", "//");
    (".kts", "//"); (".scala", "//"); (".swift", "//"); (".rs", "//");
    (".dart", "//"); (".groovy", "//"); (".gradle", "//"); (".m", "//");
    (".mm", "//"); (".php", "//"); (".v", "//"); (".sv", "//");
    (".sql", "--"); (".lua", "--"); (".hs", "--"); (".elm", "--"); (".ada", "--");
    (".lisp", ";"); (".cl", ";"); (".clj", ";"); (".cljs", ";"); (".edn", ";");
    (".scm", ";"); (".rkt", ";"); (".el", ";"); (".asm", ";"); (".s", ";");
    (".tex", "%"); (".latex", "%"); (".m", "%"); (".erl", "%"); (".hrl", "%");
    (".html", "<!--"); (".htm", "<!--"); (".xml", "<!--"); (".xhtml", "<!--");
    (".svg", "<!--"); (".vue", "<!--");
    (".css", "/*"); (".scss", "//"); (".sass", "//"); (".less", "//") ].

Definition BLOCK_COMMENT_END : PyDict.dict string :=
  [ ("<!--", " -->"); ("/*", " */") ].

(** The body of the loop of [should_ignore] for one pattern: [true] when
    the loop returns [True] at this pattern. *)
Definition pattern_ignores (file_name rel_str : string) (rel_parts : list string)
           (pattern : string) : bool :=
  let pattern_clean := rstrip "/" pattern in
  if endswith pattern "/**" || endswith pattern "/" then
    let dir_pattern := rstrip "/" (rstrip "*" pattern_clean) in
    if existsb (String.eqb dir_pattern) rel_parts then true
    else startswith rel_str (dir_pattern ++ "/")
  else if startswith pattern_clean "*." then
    Fnmatch.fnmatch file_name pattern_clean
  else if negb (contains "/" pattern_clean) && negb (contains "*" pattern_clean) then
    if existsb (String.eqb pattern_clean) rel_parts then true
    else String.eqb file_name pattern_clean
  else if Fnmatch.fnmatch rel_str pattern_clean then true
  else if contains "[" pattern_clean then
    Fnmatch.fnmatch file_name pattern_clean
  else false.

(** [should_ignore(file_path, repo_root, patterns)]; a [file_path] outside
    [repo_root] raises [ValueError]. *)
Definition should_ignore (file_path repo_root : Path) (patterns : list string)
  : outcome bool :=
  match relative_to file_path repo_root with
  | None => Raise ValueError
  | Some rel_path =>
      let rel_str := PathLib.str rel_path in
      let rel_parts := rel_path in
      Return (existsb (pattern_ignores (name file_path) rel_str rel_parts) patterns)
  end.

Definition get_comment_syntax (file_path : Path) : option string :=
  let suffix := lower (suffix file_path) in
  PyDict.get COMMENT_SYNTAX suffix.

Definition format_copyright_line (comment_prefix : string) (start_year end_year : Z)
  : string :=
  let copyright_text :=
    format COPYRIGHT_TEMPLATE
           [("start_year", PyStr.str start_year); ("end_year", PyStr.str end_year)] in
  let block_end := PyDict.get_default BLOCK_COMMENT_END comment_prefix "" in
  comment_prefix ++ " " ++ copyright_text ++ block_end.

Inductive status : Type := ok | added | updated | skipped | error.

(** The messages, by their parts: ["Unknown file type"], [str(e)],
    ["Copyright header is current"], the year transition of an update and
    the years of an added header. *)
Inductive message : Type :=
| UnknownFileType
| ExceptionText (e : exn)
| HeaderIsCurrent
| UpdatedYear (start_year end_year current_year : Z)
| AddedHeader (current_year : Z).

Record result : Type := mkResult {
  result_status : status;
  result_message : message
}.

(** [content.split("\n") if content else []]. *)
Definition lines_of (content : string) : list string :=
  if String.eqb content "" then [] else split nl content.

(** [lines[0] if lines else ""]. *)
Definition first_line_of (content : string) : string :=
  match lines_of content with
  | l :: _ => l
  | [] => ""
  end.

(** The part of [check_and_fix_file] between reading and writing (lines
    201 to 247): from the content read, the result and the new content to
    write, if any.  [lines[0] = ...] on an empty list raises [IndexError]. *)
Definition reconcile (content comment_prefix : string) (current_year : Z)
  : outcome (result * option string) :=
  let lines := lines_of content in
  let first_line := first_line_of content in
  match search_years first_line with
  | Some (start_year, end_year) =>
      if Z.eqb end_year current_year then
        Return (mkResult ok HeaderIsCurrent, None)
      else
        let new_copyright_line :=
          format_copyright_line comment_prefix start_year current_year in
        match lines with
        | [] => Raise IndexError
        | _ :: rest =>
            let new_content := join NL (new_copyright_line :: rest) in
            Return (mkResult updated (UpdatedYear start_year end_year current_year),
                    Some new_content)
        end
  | None =>
      let new_copyright_line :=
        format_copyright_line comment_prefix current_year current_year in
      let new_content :=
        if String.eqb content "" then new_copyright_line ++ NL
        else new_copyright_line ++ NL ++ content in
      Return (mkResult added (AddedHeader current_year), Some new_content)
  end.

Definition check_and_fix_file (file_path : Path) (current_year : Z) (dry_run : bool)
  : M result :=
  match get_comment_syntax file_path with
  | None => ret (mkResult skipped UnknownFileType)
  | Some comment_prefix =>
      r <- try_except
             (content <- read_text file_path ;; ret (inl content))
             (fun e => match e with
                       | UnicodeDecodeError | PermissionError => true
                       | _ => false
                       end)
             (fun e => ret (inr (mkResult error (ExceptionText e)))) ;;
      match r with
      | inr res => ret res
      | inl content =>
          match reconcile content comment_prefix current_year with
          | Raise e => raise e
          | Return (res, None) => ret res
          | Return (res, Some new_content) =>
              if dry_run then ret res
              else _ <- write_text file_path new_content ;; ret res
          end
      end
  end.

(** [find_files(repo_root, patterns)] in the world [w]. *)
Fixpoint find_files_loop (repo_root : Path) (patterns : list string) (w : World)
         (candidates : list Path) : outcome (list Path) :=
  match candidates with
  | [] => Return []
  | file_path :: more =>
      let continue := find_files_loop repo_root patterns w more in
      if is_file file_path w then
        if existsb (fun part => startswith part ".") file_path then continue
        else
          match should_ignore file_path repo_root patterns with
          | Raise e => Raise e
          | Return true => continue
          | Return false =>
              match get_comment_syntax file_path with
              | None => continue
              | Some _ =>
                  match continue with
                  | Return files => Return (file_path :: files)
                  | Raise e => Raise e
                  end
              end
          end
      else continue
  end.

Definition find_files (repo_root : Path) (patterns : list string) (w : World)
  : outcome (list Path) :=
  match find_files_loop repo_root patterns w (rglob repo_root w) with
  | Return files => Return (sorted files)
  | Raise e => Raise e
  end.

(** The [results] of [main]: the files and messages under each status. *)
Record results : Type := mkResults {
  results_ok : list (Path * message);
  results_added : list (Path * message);
  results_updated : list (Path * message);
  results_skipped : list (Path * message);
  results_error : list (Path * message)
}.

Definition no_results : results := mkResults [] [] [] [] [].

Definition results_append (rs : results) (s : status) (x : Path * message) : results :=
  match s with
  | ok => mkResults (results_ok rs ++ [x]) (results_added rs) (results_updated rs)
                    (results_skipped rs) (results_error rs)
  | added => mkResults (results_ok rs) (results_added rs ++ [x]) (results_updated rs)
                       (results_skipped rs) (results_error rs)
  | updated => mkResults (results_ok rs) (results_added rs) (results_updated rs ++ [x])
                         (results_skipped rs) (results_error rs)
  | skipped => mkResults (results_ok rs) (results_added rs) (results_updated rs)
                         (results_skipped rs ++ [x]) (results_error rs)
  | error => mkResults (results_ok rs) (results_added rs) (results_updated rs)
                       (results_skipped rs) (results_error rs ++ [x])
  end.

(** The loop of [main] over the files found (lines 324 to 330). *)
Fixpoint main_loop (files : list Path) (current_year : Z) (dry_run : bool)
         (rs : results) : M results :=
  match files with
  | [] => ret rs
  | file_path :: more =>
      res <- check_and_fix_file file_path current_year dry_run ;;
      main_loop more current_year dry_run
                (results_append rs (result_status res) (file_path, result_message res))
  end.

(** ** Notions used in the statements *)

(** A part of a relative path is not empty and holds no slash. *)
Definition valid_part (s : string) : bool :=
  negb (String.eqb s "") && negb (contains "/" s).

(** What follows the first line, its line feed included. *)
Definition after_first_line (content : string) : string :=
  drop (String.length (first_line_of content)) content.


(** The opening tokens of [COMMENT_SYNTAX]. *)
Definition opening_tokens : list string :=
  ["#"; "//"; "--"; ";"; "%"; "<!--"; "/*"].

(** [str(n)] is four decimal digits and [int] reads [n] back from them. *)
Definition four_digits (n : Z) : bool :=
  match PyStr.str n with
  | String d1 (String d2 (String d3 (String d4 ""))) =>
      Re.is_digit d1 && Re.is_digit d2 && Re.is_digit d3 && Re.is_digit d4
      && Z.eqb (int_of_digits [d1; d2; d3; d4]) n
  | _ => false
  end.

(** The text of a header after its opening token, from its pieces. *)
Definition year_text (a b c d : ascii) : string :=
  String a (String b (String c (String d ""))).

Definition attribution_text (start_year end_year tail : string) : string :=
  "Copyright " ++ start_year ++ "-" ++ end_year
  ++ " Hewlett Packard Enterprise Development LP" ++ tail.

(** ** The ignore files *)

(** [s.lstrip()], [s.rstrip()] and [s.strip()] without argument: the
    characters removed are those of [str.isspace], which on U+0000..U+00FF
    are the characters of [\s]. *)
Fixpoint lstrip_space (s : string) : string :=
  match s with
  | "" => ""
  | String a s' => if Re.is_space a then lstrip_space s' else s
  end.

Fixpoint rstrip_space (s : string) : string :=
  match s with
  | "" => ""
  | String a s' =>
      match rstrip_space s' with
      | "" => if Re.is_space a then "" else String a ""
      | r => String a r
      end
  end.

Definition strip (s : string) : string := rstrip_space (lstrip_space s).

(** [for line in f] on a text file: the lines with their line feed, the
    last one without when the text does not end with one. *)
Fixpoint iter_lines (s : string) : list string :=
  match s with
  | "" => []
  | String a s' =>
      if Ascii.eqb a nl then NL :: iter_lines s'
      else match iter_lines s' with
           | h :: t => String a h :: t
           | [] => [String a ""]
           end
  end.

(** [p.exists()]. *)
Definition path_exists (p : Path) (w : World) : bool :=
  match lookup p (nodes w) with
  | Some _ => true
  | None => false
  end.

(** The patterns one ignore file adds: its lines stripped, without the
    empty ones and those that start with [#]. *)
Definition pattern_lines (content : string) : list string :=
  filter (fun line => negb (String.eqb line "") && negb (startswith line "#"))
         (map strip (iter_lines content)).

(** The loop of [load_ignore_patterns] over the names of the ignore
    files; [patterns] is the list built so far. *)
Fixpoint load_ignore_loop (repo_root : Path) (ignore_filenames : list string)
         (patterns : list string) : M (list string) :=
  match ignore_filenames with
  | [] => ret patterns
  | ignore_filename :: more =>
      let ignore_file := (repo_root ++ [ignore_filename])%list in
      fun w =>
        if negb (path_exists ignore_file w) then
          load_ignore_loop repo_root more patterns w
        else
          (content <- read_text ignore_file ;;
           load_ignore_loop repo_root more (patterns ++ pattern_lines content)%list) w
  end.

Definition load_ignore_patterns (repo_root : Path) : M (list string) :=
  load_ignore_loop repo_root [".gitignore"; ".copyrightignore"] [].

(** The number of files recorded in the [results] of [main]. *)
Definition results_count (rs : results) : nat :=
  (List.length (results_ok rs) + List.length (results_added rs)
   + List.length (results_updated rs) + List.length (results_skipped rs)
   + List.length (results_error rs))%nat.

(** The end of [main] (lines 352 to 359): the exit status, 0 when the
    function returns without calling [sys.exit]. *)
Definition exit_status (check_only : bool) (rs : results) : Z :=
  if check_only
     && (negb (Nat.eqb (List.length (results_added rs)) 0)
         || negb (Nat.eqb (List.length (results_updated rs)) 0))
  then 1%Z
  else if negb (Nat.eqb (List.length (results_error rs)) 0) then 1%Z
  else 0%Z.

(** [main] after the arguments are parsed (lines 304 to 359), without the
    printing: [repo_root] is the resolved path, the other arguments are
    [args.year], [args.dry_run] and [args.check_only].  The value is the
    exit status, 0 when [main] returns without calling [sys.exit]. *)
Definition main (repo_root : Path) (current_year : Z) (dry_run check_only : bool)
  : M Z :=
  fun w =>
    if negb (path_exists repo_root w) then (Return 1%Z, w)
    else
      (patterns <- load_ignore_patterns repo_root ;;
       fun w1 =>
         match find_files repo_root patterns w1 with
         | Raise e => (Raise e, w1)
         | Return files =>
             (rs <- main_loop files current_year (dry_run || check_only) no_results ;;
              ret (exit_status check_only rs)) w1
         end) w.

(** ** Further notions used in the statements *)

(** The exceptions that the [except] clause of [check_and_fix_file]
    names. *)
Definition caught (e : exn) : bool :=
  match e with
  | UnicodeDecodeError | PermissionError => true
  | _ => false
  end.

(** [p] is a regular file that may be opened for writing. *)
Definition writable_file (p : Path) (w : World) : bool :=
  match lookup p (nodes w) with
  | Some (File f) => writable f
  | _ => false
  end.

(** [p] is not after [q] in the order of [sorted]. *)
Definition path_le (p q : Path) : Prop := path_leb p q = true.

(** What [find_files] keeps of the entries below the root. *)
Definition kept (repo_root : Path) (patterns : list string) (w : World)
           (file_path : Path) : bool :=
  is_file file_path w
  && negb (existsb (fun part => startswith part ".") file_path)
  && match should_ignore file_path repo_root patterns with
     | Return false => true
     | _ => false
     end
  && match get_comment_syntax file_path with
     | Some _ => true
     | None => false
     end.

(** A pattern as [load_ignore_patterns] keeps them: not empty, no comment,
    no white space at either end. *)
Definition clean_pattern (p : string) : Prop :=
  p <> "" /\ startswith p "#" = false /\ strip p = p.

(** The entries of the [results] of [main], the five lists one after the
    other. *)
Definition recorded (rs : results) : list (Path * message) :=
  (results_ok rs ++ results_added rs ++ results_updated rs
   ++ results_skipped rs ++ results_error rs)%list.

(** * Properties *)

(** ** Paths below a root *)

Section UnderRoot.

Variable repo_root : Path.

Lemma relative_to_app (rel_path : Path) :
  relative_to (repo_root ++ rel_path)%list repo_root = Some rel_path.
Proof.
  induction repo_root as [|r root' IH]; simpl.
  - reflexivity.
  - rewrite String.eqb_refl. exact IH.
Qed.

Lemma last_app_nonempty (rel_path : Path) :
  rel_path <> [] -> last (repo_root ++ rel_path)%list "" = last rel_path "".
Proof.
  intros Hne. induction repo_root as [|r root' IH]; simpl.
  - reflexivity.
  - destruct (root' ++ rel_path)%list eqn:E.
    + apply app_eq_nil in E. destruct E as [_ E]. contradiction.
    + exact IH.
Qed.

Lemma name_app_nonempty (rel_path : Path) :
  rel_path <> [] -> name (repo_root ++ rel_path)%list = name rel_path.
Proof.
  intros Hne. unfold name. rewrite last_app_nonempty by exact Hne. reflexivity.
Qed.

(** On a path below the root, [should_ignore] returns, and its value is
    the disjunction over the patterns. *)
Lemma should_ignore_under (rel_path : Path) (patterns : list string) :
  rel_path <> [] ->
  should_ignore (repo_root ++ rel_path)%list repo_root patterns =
  Return (existsb (pattern_ignores (name rel_path) (PathLib.str rel_path) rel_path)
                  patterns).
Proof.
  intros Hne. unfold should_ignore.
  rewrite relative_to_app, name_app_nonempty by exact Hne.
  reflexivity.
Qed.

End UnderRoot.

(** ** C7: the directory pattern [build/] *)

(** C7. With the single pattern [build/], the files at [build/x.go] and
    [sub/build/y.go] below any root are ignored, and so is a file whose
    path below the root is just [build]. *)
Theorem build_directory_pattern (repo_root : Path) :
  should_ignore (repo_root ++ ["build"; "x.go"])%list repo_root ["build/"] = Return true
  /\ should_ignore (repo_root ++ ["sub"; "build"; "y.go"])%list repo_root ["build/"] = Return true
  /\ should_ignore (repo_root ++ ["build"])%list repo_root ["build/"] = Return true.
Proof.
  repeat split; rewrite should_ignore_under by discriminate; reflexivity.
Qed.

(** ** C8: unknown extensions *)

(** C8. A file whose lower-cased suffix is not a key of [COMMENT_SYNTAX]
    is reported as skipped whatever the world holds; no file is opened and
    the world is left as it was. *)
Theorem unknown_extension_skipped
        (file_path : Path) (current_year : Z) (dry_run : bool) (w : World) :
  PyDict.get COMMENT_SYNTAX (lower (suffix file_path)) = None ->
  check_and_fix_file file_path current_year dry_run w
  = (Return (mkResult skipped UnknownFileType), w).
Proof.
  intros Hnone. unfold check_and_fix_file, get_comment_syntax.
  rewrite Hnone. reflexivity.
Qed.

Lemma unknown_extension_skipped_witness :
  let w := mkWorld [(["/"; "r"; "d.xyz"], File (mkFile (Text "anything") true true))] [] in
  PyDict.get COMMENT_SYNTAX (lower (suffix ["/"; "r"; "d.xyz"])) = None
  /\ check_and_fix_file ["/"; "r"; "d.xyz"] 2025 false w
     = (Return (mkResult skipped UnknownFileType), w).
Proof.
  split; [reflexivity | apply unknown_extension_skipped; reflexivity].
Defined.

(** ** C9: the format of the header line *)

Lemma block_end_cases (comment_prefix : string) :
  PyDict.get_default BLOCK_COMMENT_END comment_prefix "" =
  if String.eqb comment_prefix "<!--" then " -->"
  else if String.eqb comment_prefix "/*" then " */"
  else "".
Proof.
  unfold PyDict.get_default, PyDict.get, BLOCK_COMMENT_END. cbn [fold_left fst snd].
  rewrite (String.eqb_sym "/*" comment_prefix), (String.eqb_sym "<!--" comment_prefix).
  destruct (String.eqb_spec comment_prefix "/*") as [->|_].
  - reflexivity.
  - destruct (comment_prefix =? "<!--"); reflexivity.
Qed.

Lemma template_format (start_year end_year : string) :
  format COPYRIGHT_TEMPLATE [("start_year", start_year); ("end_year", end_year)] =
  "Copyright " ++ start_year ++ "-" ++ end_year
  ++ " Hewlett Packard Enterprise Development LP".
Proof. reflexivity. Qed.

Lemma format_copyright_line_eq (comment_prefix : string) (start_year end_year : Z) :
  format_copyright_line comment_prefix start_year end_year =
  comment_prefix ++ " " ++
  ("Copyright " ++ PyStr.str start_year ++ "-" ++ PyStr.str end_year
   ++ " Hewlett Packard Enterprise Development LP")
  ++ (if String.eqb comment_prefix "<!--" then " -->"
      else if String.eqb comment_prefix "/*" then " */"
      else "").
Proof.
  unfold format_copyright_line. rewrite template_format, block_end_cases. reflexivity.
Qed.

(** C9. The header line is the opening token, one space, the attribution
    with the two years, and then one space and the closing token for the
    block openers ([-->] for [<!--], [*/] for [/*]), nothing for the
    others; a [.html] file that starts with the 2025-2025 header is found
    current in 2025 and is not written. *)
Theorem header_line_format :
  (forall (comment_prefix : string) (start_year end_year : Z),
      format_copyright_line comment_prefix start_year end_year =
      comment_prefix ++ " " ++
      ("Copyright " ++ PyStr.str start_year ++ "-" ++ PyStr.str end_year
       ++ " Hewlett Packard Enterprise Development LP")
      ++ (if String.eqb comment_prefix "<!--" then " " ++ "-->"
          else if String.eqb comment_prefix "/*" then " " ++ "*/"
          else ""))
  /\ (let content :=
        "<!-- Copyright 2025-2025 Hewlett Packard Enterprise Development LP -->"
        ++ NL ++ "<html></html>" in
      let c_html := ["/"; "r"; "c.html"] in
      let w := mkWorld [(c_html, File (mkFile (Text content) true true))] [] in
      get_comment_syntax c_html = Some "<!--"
      /\ reconcile content "<!--" 2025 = Return (mkResult ok HeaderIsCurrent, None)
      /\ check_and_fix_file c_html 2025 false w
         = (Return (mkResult ok HeaderIsCurrent), log (OpenForRead c_html) w)
      /\ content_of c_html (snd (check_and_fix_file c_html 2025 false w)) = Some content).
Proof.
  split.
  - intros. apply format_copyright_line_eq.
  - repeat split; vm_compute; reflexivity.
Qed.

(** ** C3: a file without a header *)

Lemma reconcile_added (content comment_prefix : string) (current_year : Z) :
  search_years (first_line_of content) = None ->
  reconcile content comment_prefix current_year =
  Return (mkResult added (AddedHeader current_year),
          Some (format_copyright_line comment_prefix current_year current_year
                ++ NL ++ content)).
Proof.
  intros Hnone. unfold reconcile. rewrite Hnone.
  destruct (String.eqb_spec content "") as [->|_]; reflexivity.
Qed.

(** C3. When the first line has no match of the pattern, the status is
    [added] and the new content is the header line for the target year
    (as start and as end year), a line feed, and the content as it was;
    for an empty content that is the header line and one line feed.  A
    [.py] file that holds [print(1)] gets the 2025-2025 hash header in
    front. *)
Theorem header_added (content comment_prefix : string) (current_year : Z) :
  search_years (first_line_of content) = None ->
  reconcile content comment_prefix current_year =
  Return (mkResult added (AddedHeader current_year),
          Some (format_copyright_line comment_prefix current_year current_year
                ++ NL ++ content))
  /\ (content = "" ->
      reconcile content comment_prefix current_year =
      Return (mkResult added (AddedHeader current_year),
              Some (format_copyright_line comment_prefix current_year current_year ++ NL)))
  /\ (let a_py := ["/"; "r"; "a.py"] in
      let w := mkWorld [(a_py, File (mkFile (Text "print(1)") true true))] [] in
      let header := "# Copyright 2025-2025 Hewlett Packard Enterprise Development LP" in
      get_comment_syntax a_py = Some "#"
      /\ fst (check_and_fix_file a_py 2025 false w)
         = Return (mkResult added (AddedHeader 2025))
      /\ content_of a_py (snd (check_and_fix_file a_py 2025 false w))
         = Some (header ++ NL ++ "print(1)")).
Proof.
  intros Hnone.
  pose proof (reconcile_added content comment_prefix current_year Hnone) as Hrec.
  split; [exact Hrec|]. split.
  - intros ->. rewrite Hrec. reflexivity.
  - repeat split; vm_compute; reflexivity.
Qed.

Lemma header_added_witness :
  search_years (first_line_of "print(1)") = None
  /\ reconcile "print(1)" "#" 2025 =
     Return (mkResult added (AddedHeader 2025),
             Some ("# Copyright 2025-2025 Hewlett Packard Enterprise Development LP"
                   ++ NL ++ "print(1)")).
Proof.
  split; [reflexivity|].
  exact (proj1 (header_added "print(1)" "#" 2025 eq_refl)).
Defined.

(** ** C10: discovery below a hidden directory *)

(** C10 (the code departs from it). With the root [/home/u/.proj] and the
    one file [a.py] in it, [find_files] returns no file, although the path
    of the file below the root has no part that starts with a dot, no
    pattern ignores it and its suffix has a comment syntax: the test for
    hidden parts runs over the parts of the whole path, those of the root
    included. *)
Theorem find_files_below_hidden_root :
  let repo_root := ["/"; "home"; "u"; ".proj"] in
  let a_py := (repo_root ++ ["a.py"])%list in
  let w := mkWorld [(repo_root, Dir);
                    (a_py, File (mkFile (Text "print(1)") true true))] [] in
  is_file a_py w = true
  /\ relative_to a_py repo_root = Some ["a.py"]
  /\ existsb (fun part => startswith part ".") ["a.py"] = false
  /\ should_ignore a_py repo_root [] = Return false
  /\ get_comment_syntax a_py = Some "#"
  /\ find_files repo_root [] w = Return [].
Proof. repeat split. Qed.

(** The same tree below a root without hidden parts is found. *)
Lemma find_files_below_plain_root :
  let repo_root := ["/"; "home"; "u"; "proj"] in
  let a_py := (repo_root ++ ["a.py"])%list in
  let w := mkWorld [(repo_root, Dir);
                    (a_py, File (mkFile (Text "print(1)") true true))] [] in
  find_files repo_root [] w = Return [a_py].
Proof. reflexivity. Qed.

(** ** C4: failures of reading and of writing *)

(** A failure to decode or a refusal to open for reading gives the status
    [error] with the exception as message, and no write is attempted. *)
Lemma read_failure_is_local
      (file_path : Path) (current_year : Z) (dry_run : bool) (w : World)
      (comment_prefix : string) (e : exn) :
  get_comment_syntax file_path = Some comment_prefix ->
  fst (read_text file_path w) = Raise e ->
  e = UnicodeDecodeError \/ e = PermissionError ->
  check_and_fix_file file_path current_year dry_run w
  = (Return (mkResult error (ExceptionText e)), log (OpenForRead file_path) w).
Proof.
  intros Hsyn Hread He. unfold check_and_fix_file. rewrite Hsyn.
  unfold bind, try_except, ret.
  unfold read_text in *.
  destruct (lookup file_path (nodes w)) as [[|f]|]; simpl in *.
  - destruct He as [-> | ->]; discriminate.
  - destruct (readable f); simpl in *.
    + destruct (data f); simpl in *; [discriminate|].
      injection Hread as <-. reflexivity.
    + injection Hread as <-. reflexivity.
  - destruct He as [-> | ->]; discriminate.
Qed.

(** C4 (the code departs from it). [a.py] can be read but not written and
    has no header; [b.py] is an ordinary file without a header.  The
    refusal to open [a.py] for writing is not caught: [check_and_fix_file]
    raises [PermissionError] instead of returning the status [error], the
    loop of [main] ends there, and [b.py] is never opened and keeps its
    content. *)
Theorem write_failure_escapes :
  let a_py := ["/"; "r"; "a.py"] in
  let b_py := ["/"; "r"; "b.py"] in
  let w := mkWorld [(a_py, File (mkFile (Text "print(1)") true false));
                    (b_py, File (mkFile (Text "print(2)") true true))] [] in
  find_files ["/"; "r"] [] w = Return [a_py; b_py]
  /\ fst (check_and_fix_file a_py 2025 false w) = Raise PermissionError
  /\ fst (main_loop [a_py; b_py] 2025 false no_results w) = Raise PermissionError
  /\ trace (snd (main_loop [a_py; b_py] 2025 false no_results w))
     = [OpenForRead a_py; OpenForWrite a_py]
  /\ content_of b_py (snd (main_loop [a_py; b_py] 2025 false no_results w))
     = Some "print(2)"
  /\ fst (check_and_fix_file b_py 2025 false w) = Return (mkResult added (AddedHeader 2025)).
Proof. repeat split. Qed.

(** ** C5: the order of the last two rules of [should_ignore] *)

(** C5 (false as the specification states it). The pattern [src/*.py[cod]] is no
    directory marker, does not start with [*.], contains a slash and a
    bracket; the base name [a.pyc] does not match it, and yet the file
    [src/a.pyc] is ignored, because the glob on the whole relative path
    is tried before the bracket rule. *)
Lemma class_rule_not_alone :
  let pattern := "src/*.py[cod]" in
  let repo_root := ["/"; "r"] in
  endswith pattern "/**" || endswith pattern "/" = false
  /\ startswith (rstrip "/" pattern) "*." = false
  /\ contains "/" (rstrip "/" pattern) = true
  /\ contains "[" (rstrip "/" pattern) = true
  /\ Fnmatch.fnmatch "a.pyc" (rstrip "/" pattern) = false
  /\ should_ignore (repo_root ++ ["src"; "a.pyc"])%list repo_root [pattern] = Return true.
Proof. repeat split. Qed.

(** C5 (amended). For one pattern that is no directory marker, does not
    start with [*.] once its trailing slashes are stripped, and contains
    a slash or a star, the file is ignored exactly when the whole relative
    path matches the pattern as a glob, or the pattern contains a bracket
    and the base name matches it: the glob on the whole path comes first,
    for patterns with a bracket too, and the base name is tried only when
    that glob fails. *)
Theorem path_glob_then_class (repo_root rel_path : Path) (pattern : string) :
  rel_path <> [] ->
  endswith pattern "/**" = false ->
  endswith pattern "/" = false ->
  startswith (rstrip "/" pattern) "*." = false ->
  contains "/" (rstrip "/" pattern) = true \/ contains "*" (rstrip "/" pattern) = true ->
  should_ignore (repo_root ++ rel_path)%list repo_root [pattern] =
  Return (Fnmatch.fnmatch (PathLib.str rel_path) (rstrip "/" pattern)
          || (contains "[" (rstrip "/" pattern)
              && Fnmatch.fnmatch (name rel_path) (rstrip "/" pattern))).
Proof.
  intros Hne Hstars Hslash Hext Hshape.
  rewrite should_ignore_under by exact Hne.
  cbn [existsb]. rewrite orb_false_r. f_equal.
  unfold pattern_ignores. rewrite Hstars, Hslash, Hext. cbn [orb].
  replace (negb (contains "/" (rstrip "/" pattern))
           && negb (contains "*" (rstrip "/" pattern))) with false
    by (destruct Hshape as [-> | ->]; [reflexivity | apply eq_sym, andb_false_r]).
  destruct (Fnmatch.fnmatch (PathLib.str rel_path) (rstrip "/" pattern)); cbn [orb].
  - reflexivity.
  - destruct (contains "[" (rstrip "/" pattern)); reflexivity.
Qed.

Lemma path_glob_then_class_witness :
  should_ignore ["/"; "r"; "src"; "a.pyc"] ["/"; "r"] ["src/*.py[cod]"] = Return true.
Proof.
  refine (eq_trans
            (path_glob_then_class ["/"; "r"] ["src"; "a.pyc"] "src/*.py[cod]" _ _ _ _ _) _).
  - discriminate.
  - reflexivity.
  - reflexivity.
  - reflexivity.
  - left. reflexivity.
  - reflexivity.
Defined.

(** ** C6: patterns that are empty once stripped *)

Lemma rstrip_empty (c : ascii) (s : string) :
  rstrip c s = "" -> s = "" \/ endswith s (String c "") = true.
Proof.
  induction s as [|a s' IH]; intros H.
  - left. reflexivity.
  - right. simpl in H.
    destruct (rstrip c s') eqn:E; [|discriminate].
    destruct (Ascii.eqb_spec a c) as [->|]; [|discriminate].
    destruct (IH eq_refl) as [-> | Hend].
    + simpl. rewrite Ascii.eqb_refl. reflexivity.
    + cbn [endswith]. rewrite Hend. apply orb_true_r.
Qed.

Lemma no_empty_part (parts : list string) :
  forallb valid_part parts = true -> existsb (String.eqb "") parts = false.
Proof.
  induction parts as [|x parts IH]; intros H; simpl in *.
  - reflexivity.
  - apply andb_true_iff in H. destruct H as [Hx Hrest].
    rewrite (IH Hrest), orb_false_r.
    destruct x; [discriminate | reflexivity].
Qed.

Lemma last_valid (parts : list string) :
  parts <> [] -> forallb valid_part parts = true -> valid_part (last parts "") = true.
Proof.
  induction parts as [|x parts IH]; intros Hne H.
  - contradiction.
  - simpl in H. apply andb_true_iff in H. destruct H as [Hx Hrest].
    destruct parts as [|y parts'].
    + exact Hx.
    + apply IH; [discriminate | exact Hrest].
Qed.

Lemma name_not_empty (rel_path : Path) :
  rel_path <> [] -> forallb valid_part rel_path = true ->
  String.eqb (name rel_path) "" = false.
Proof.
  intros Hne H. pose proof (last_valid rel_path Hne H) as Hv.
  unfold name. destruct (last rel_path "") as [|a s]; [discriminate|].
  unfold valid_part in Hv. simpl in Hv.
  destruct (Ascii.eqb_spec a "/") as [->|Hna].
  - discriminate.
  - replace (String a s =? "/") with false; [reflexivity|].
    symmetry. apply String.eqb_neq. intros E. injection E as E1 E2. contradiction.
Qed.

Lemma str_no_leading_slash (rel_path : Path) :
  rel_path <> [] -> forallb valid_part rel_path = true ->
  startswith (PathLib.str rel_path) "/" = false.
Proof.
  intros Hne H. destruct rel_path as [|x rest]; [contradiction|].
  simpl in H. apply andb_true_iff in H. destruct H as [Hx _].
  destruct x as [|a s]; [discriminate|].
  unfold valid_part in Hx. simpl in Hx.
  destruct (Ascii.eqb_spec a "/") as [->|Hna]; [discriminate|].
  unfold PathLib.str.
  replace (String a s =? "/") with false
    by (symmetry; apply String.eqb_neq; intros E; injection E as E1 E2; contradiction).
  unfold startswith, join.
  assert (Hhead : forall t, String.prefix "/" (String a t) = false).
  { intros t. cbn [String.prefix].
    destruct (ascii_dec "/" a) as [E|_]; [symmetry in E; contradiction | reflexivity]. }
  destruct rest as [|y rest']; cbn [String.concat append]; apply Hhead.
Qed.

Lemma stripped_empty_ignores_nothing (rel_path : Path) (pattern : string) :
  rel_path <> [] -> forallb valid_part rel_path = true ->
  rstrip "/" pattern = "" ->
  pattern_ignores (name rel_path) (PathLib.str rel_path) rel_path pattern = false.
Proof.
  intros Hne Hvalid Hstrip.
  destruct (rstrip_empty _ _ Hstrip) as [-> | Hend].
  - change (pattern_ignores (name rel_path) (PathLib.str rel_path) rel_path "")
      with (if existsb (String.eqb "") rel_path then true
            else String.eqb (name rel_path) "").
    rewrite (no_empty_part _ Hvalid).
    apply name_not_empty; assumption.
  - unfold pattern_ignores. cbv zeta. rewrite Hstrip, Hend, orb_true_r.
    change (rstrip "/" (rstrip "*" "")) with "".
    change ("" ++ "/") with "/".
    rewrite (no_empty_part _ Hvalid).
    apply str_no_leading_slash; assumption.
Qed.

(** C6. For a path below the root, made of valid parts: the empty list of
    patterns ignores nothing, and neither does any list of patterns that
    are empty once their trailing slashes are stripped (the empty string,
    [/], [//], ...). *)
Theorem empty_patterns_ignore_nothing
        (repo_root rel_path : Path) (patterns : list string) :
  rel_path <> [] ->
  forallb valid_part rel_path = true ->
  (forall pattern, In pattern patterns -> rstrip "/" pattern = "") ->
  should_ignore (repo_root ++ rel_path)%list repo_root [] = Return false
  /\ should_ignore (repo_root ++ rel_path)%list repo_root patterns = Return false.
Proof.
  intros Hne Hvalid Hempty. split.
  - rewrite should_ignore_under by exact Hne. reflexivity.
  - rewrite should_ignore_under by exact Hne. f_equal.
    induction patterns as [|p ps IH].
    + reflexivity.
    + cbn [existsb].
      rewrite stripped_empty_ignores_nothing; try assumption.
      * apply IH. intros q Hq. apply Hempty. right. exact Hq.
      * apply Hempty. left. reflexivity.
Qed.

Lemma empty_patterns_ignore_nothing_witness :
  should_ignore ["/"; "r"; "src"; "a.py"] ["/"; "r"] [] = Return false
  /\ should_ignore ["/"; "r"; "src"; "a.py"] ["/"; "r"] ["/"; ""; "//"] = Return false.
Proof.
  apply (empty_patterns_ignore_nothing ["/"; "r"] ["src"; "a.py"] ["/"; ""; "//"]).
  - discriminate.
  - reflexivity.
  - intros pattern [<- | [<- | [<- | []]]]; reflexivity.
Defined.

(** ** Lines of a text *)

Section Lines.

Variable sep : ascii.

Lemma split_not_nil (s : string) : split sep s <> [].
Proof.
  destruct s as [|a s']; simpl.
  - discriminate.
  - destruct (Ascii.eqb a sep); [discriminate|].
    destruct (split sep s'); discriminate.
Qed.

(** Joining the pieces again gives the text back. *)
Lemma join_split (s : string) : join (String sep "") (split sep s) = s.
Proof.
  unfold join. induction s as [|a s' IH]; simpl.
  - reflexivity.
  - destruct (Ascii.eqb_spec a sep) as [->|Hne].
    + pose proof (split_not_nil s') as Hnn.
      destruct (split sep s') as [|h t]; [contradiction|].
      cbn [String.concat append] in *. rewrite IH. reflexivity.
    + pose proof (split_not_nil s') as Hnn.
      destruct (split sep s') as [|h t]; [contradiction|].
      destruct t; cbn [String.concat append] in *; rewrite IH; reflexivity.
Qed.

(** The first piece holds no separator. *)
Lemma split_head_clean (s h : string) (t : list string) :
  split sep s = h :: t -> contains sep h = false.
Proof.
  revert h t. induction s as [|a s' IH]; simpl; intros h t H.
  - injection H as <- _. reflexivity.
  - destruct (Ascii.eqb_spec a sep) as [->|Hne].
    + injection H as <- _. reflexivity.
    + destruct (split sep s') as [|h' t'] eqn:E.
      * injection H as <- _. simpl.
        destruct (Ascii.eqb_spec a sep); [contradiction | reflexivity].
      * injection H as <- _. simpl.
        destruct (Ascii.eqb_spec a sep); [contradiction|].
        exact (IH h' t' eq_refl).
Qed.



End Lines.

Lemma drop_app (a b : string) : drop (String.length a) (a ++ b) = b.
Proof.
  induction a as [|c a' IH]; simpl.
  - destruct b; reflexivity.
  - exact IH.
Qed.

Lemma append_nil_r (s : string) : s ++ "" = s.
Proof. induction s as [|a s' IH]; simpl; [|rewrite IH]; reflexivity. Qed.

Lemma append_assoc (a b c : string) : (a ++ b) ++ c = a ++ b ++ c.
Proof. induction a as [|x a' IH]; simpl; [|rewrite IH]; reflexivity. Qed.

Lemma contains_app (c : ascii) (a b : string) :
  contains c (a ++ b) = contains c a || contains c b.
Proof.
  induction a as [|x a' IH]; simpl.
  - reflexivity.
  - rewrite IH. apply orb_assoc.
Qed.

Lemma first_line_clean (content : string) :
  contains nl (first_line_of content) = false.
Proof.
  unfold first_line_of, lines_of.
  destruct (String.eqb content ""); [reflexivity|].
  destruct (split nl content) as [|h t] eqn:E; [reflexivity|].
  exact (split_head_clean nl content h t E).
Qed.

(** The lines of a text are its first line and the lines [rest]; putting
    another first line in front of [rest] changes nothing after it. *)
Lemma replace_first_line (content first : string) (rest : list string) (new_line : string) :
  lines_of content = first :: rest ->
  content = first ++ after_first_line content
  /\ join NL (new_line :: rest) = new_line ++ after_first_line content
  /\ after_first_line content = match rest with [] => "" | _ => NL ++ join NL rest end.
Proof.
  intros Hlines.
  assert (Hfirst : first_line_of content = first)
    by (unfold first_line_of; rewrite Hlines; reflexivity).
  unfold after_first_line. rewrite Hfirst.
  assert (Hjoin : content = join NL (first :: rest)).
  { unfold lines_of in Hlines.
    destruct (String.eqb content ""); [discriminate|].
    rewrite <- Hlines. symmetry. apply join_split. }
  assert (Hshape : forall l, join NL (l :: rest) =
                             l ++ match rest with [] => "" | _ => NL ++ join NL rest end).
  { intros l. unfold join. destruct rest; cbn [String.concat].
    - symmetry. apply append_nil_r.
    - reflexivity. }
  rewrite (Hshape first) in Hjoin.
  rewrite Hjoin, drop_app.
  split; [reflexivity | split; [apply Hshape | reflexivity]].
Qed.

Lemma content_split (content : string) :
  content = first_line_of content ++ after_first_line content.
Proof.
  destruct (lines_of content) as [|first rest] eqn:E.
  - destruct content as [|a s]; [reflexivity|].
    exfalso. exact (split_not_nil nl (String a s) E).
  - destruct (replace_first_line content first rest "" E) as [H _].
    assert (Hfirst : first_line_of content = first)
      by (unfold first_line_of; rewrite E; reflexivity).
    rewrite Hfirst at 1. exact H.
Qed.

(** ** C2: a header with another end year *)

Lemma search_years_empty : search_years "" = None.
Proof. reflexivity. Qed.

Lemma reconcile_updated
      (content comment_prefix : string) (current_year start_year end_year : Z) :
  search_years (first_line_of content) = Some (start_year, end_year) ->
  end_year <> current_year ->
  reconcile content comment_prefix current_year =
  Return (mkResult updated (UpdatedYear start_year end_year current_year),
          Some (format_copyright_line comment_prefix start_year current_year
                ++ after_first_line content)).
Proof.
  intros Hmatch Hyear. unfold reconcile. rewrite Hmatch.
  destruct (Z.eqb_spec end_year current_year) as [E|_]; [contradiction|].
  destruct (lines_of content) as [|first rest] eqn:Hlines.
  - unfold first_line_of in Hmatch. rewrite Hlines in Hmatch.
    rewrite search_years_empty in Hmatch. discriminate.
  - destruct (replace_first_line content first rest
                (format_copyright_line comment_prefix start_year current_year) Hlines)
      as [_ [Hnew _]].
    rewrite Hnew. reflexivity.
Qed.

(** C2. When the first line matches with the years [(start_year,
    end_year)] and [end_year] is not the target year, whether smaller or
    greater, the status is [updated] and the new content is the header
    line for [start_year] and the target year followed by everything that
    followed the first line, unchanged. *)
Theorem header_updated
        (content comment_prefix : string) (current_year start_year end_year : Z) :
  search_years (first_line_of content) = Some (start_year, end_year) ->
  end_year <> current_year ->
  reconcile content comment_prefix current_year =
  Return (mkResult updated (UpdatedYear start_year end_year current_year),
          Some (format_copyright_line comment_prefix start_year current_year
                ++ after_first_line content))
  /\ content = first_line_of content ++ after_first_line content
  /\ contains nl (first_line_of content) = false.
Proof.
  intros Hmatch Hyear.
  split; [|split; [apply content_split | apply first_line_clean]].
  apply reconcile_updated; assumption.
Qed.

Lemma header_updated_witness :
  let b_go := "// Copyright 2021-2023 Hewlett Packard Enterprise Development LP"
              ++ NL ++ "package main" in
  reconcile b_go "//" 2025 =
  Return (mkResult updated (UpdatedYear 2021 2023 2025),
          Some ("// Copyright 2021-2025 Hewlett Packard Enterprise Development LP"
                ++ NL ++ "package main"))
  /\ reconcile b_go "//" 2022 =
     Return (mkResult updated (UpdatedYear 2021 2023 2022),
             Some ("// Copyright 2021-2022 Hewlett Packard Enterprise Development LP"
                   ++ NL ++ "package main")).
Proof.
  intros b_go. split.
  - exact (proj1 (header_updated b_go "//" 2025 2021 2023 eq_refl ltac:(discriminate))).
  - exact (proj1 (header_updated b_go "//" 2022 2021 2023 eq_refl ltac:(discriminate))).
Defined.

(** ** Years of four digits *)

Lemma four_digits_table :
  forallb (fun k => four_digits (Z.of_nat k)) (seq 1000 (90 * 100)) = true.
Proof. vm_compute. reflexivity. Qed.

Lemma year_four_digits (n : Z) : (1000 <= n <= 9999)%Z -> four_digits n = true.
Proof.
  intros Hn.
  pose proof (proj1 (forallb_forall _ _) four_digits_table (Z.to_nat n)) as H.
  cbv beta in H. rewrite Z2Nat.id in H by lia.
  apply H. apply in_seq. lia.
Qed.

Lemma digit_not_space (a : ascii) : Re.is_digit a = true -> Re.is_space a = false.
Proof.
  destruct a as [[] [] [] [] [] [] [] []]; intros H; try discriminate H; reflexivity.
Qed.

Lemma digit_not_nl (a : ascii) : Re.is_digit a = true -> Ascii.eqb a nl = false.
Proof.
  destruct a as [[] [] [] [] [] [] [] []]; intros H; try discriminate H; reflexivity.
Qed.

Lemma digit_value_range (a : ascii) :
  Re.is_digit a = true -> (0 <= digit_value a <= 9)%Z.
Proof.
  unfold Re.is_digit, digit_value. intros H.
  apply andb_true_iff in H. destruct H as [H1 H2].
  apply N.leb_le in H1, H2. lia.
Qed.

(** ** The pattern on a formatted header *)

Section SearchHeader.

Variables d1 d2 d3 d4 e1 e2 e3 e4 : ascii.
Hypothesis Hd1 : Re.is_digit d1 = true.
Hypothesis Hd2 : Re.is_digit d2 = true.
Hypothesis Hd3 : Re.is_digit d3 = true.
Hypothesis Hd4 : Re.is_digit d4 = true.
Hypothesis He1 : Re.is_digit e1 = true.
Hypothesis He2 : Re.is_digit e2 = true.
Hypothesis He3 : Re.is_digit e3 = true.
Hypothesis He4 : Re.is_digit e4 = true.

Local Arguments Re.is_space : simpl never.
Local Arguments Re.is_digit : simpl never.

Ltac known_classes :=
  change (Re.is_space " ") with true;
  change (Re.is_space "H") with false;
  change (Re.is_space "P") with false;
  change (Re.is_space "E") with false;
  change (Re.is_space "D") with false;
  change (Re.is_space "L") with false;
  rewrite ?Hd1, ?Hd2, ?Hd3, ?Hd4, ?He1, ?He2, ?He3, ?He4,
    ?(digit_not_space d1 Hd1).

(** The pattern matches where the attribution starts and captures the
    eight digits. *)
Lemma match_attribution (tail : string) :
  Re.match_here COPYRIGHT_PATTERN
    (attribution_text (year_text d1 d2 d3 d4) (year_text e1 e2 e3 e4) tail)
  = Some [d1; d2; d3; d4; e1; e2; e3; e4].
Proof.
  unfold attribution_text, year_text, COPYRIGHT_PATTERN, Re.lits.
  cbn. repeat (known_classes; cbn). reflexivity.
Qed.

Lemma attribution_clean (tail : string) :
  contains nl tail = false ->
  contains nl (attribution_text (year_text d1 d2 d3 d4) (year_text e1 e2 e3 e4) tail)
  = false.
Proof.
  intros Htail. unfold attribution_text, year_text.
  cbn [append contains].
  rewrite (digit_not_nl d1 Hd1), (digit_not_nl d2 Hd2), (digit_not_nl d3 Hd3),
    (digit_not_nl d4 Hd4), (digit_not_nl e1 He1), (digit_not_nl e2 He2),
    (digit_not_nl e3 He3), (digit_not_nl e4 He4), Htail.
  reflexivity.
Qed.

End SearchHeader.

(** No match starts at a character other than [C]. *)
Lemma search_skip (s rest : string) :
  contains "C" s = false ->
  Re.search COPYRIGHT_PATTERN (s ++ rest) = Re.search COPYRIGHT_PATTERN rest.
Proof.
  induction s as [|a s' IH]; intros H.
  - reflexivity.
  - simpl in H. apply orb_false_iff in H. destruct H as [Ha Hs].
    change (String a s' ++ rest) with (String a (s' ++ rest)).
    cbn [Re.search].
    replace (Re.match_here COPYRIGHT_PATTERN (String a (s' ++ rest))) with (@None Re.captures).
    + apply IH. exact Hs.
    + unfold COPYRIGHT_PATTERN, Re.lits. cbn [list_ascii_of_string map app Re.match_here].
      rewrite Ha. reflexivity.
Qed.

(** The captured characters are digits. *)
Lemma greedy_ws_digits (k : string -> option Re.captures) :
  (forall s r, k s = Some r -> Forall (fun a => Re.is_digit a = true) r) ->
  forall s r, Re.greedy_ws k s = Some r -> Forall (fun a => Re.is_digit a = true) r.
Proof.
  intros Hk. induction s as [|a s' IH]; simpl; intros r H.
  - exact (Hk _ _ H).
  - destruct (Re.is_space a).
    + destruct (Re.greedy_ws k s') as [r'|] eqn:E.
      * injection H as <-. exact (IH r' eq_refl).
      * exact (Hk _ _ H).
    + exact (Hk _ _ H).
Qed.

Lemma match_here_digits (p : list Re.elem) :
  forall s r, Re.match_here p s = Some r -> Forall (fun a => Re.is_digit a = true) r.
Proof.
  induction p as [|e p' IH]; intros s r H.
  - injection H as <-. constructor.
  - destruct e; cbn [Re.match_here] in H.
    + destruct s as [|a s']; [discriminate|].
      destruct (Ascii.eqb a c); [|discriminate]. exact (IH _ _ H).
    + destruct s as [|a s']; [discriminate|].
      destruct (Re.is_space a); [|discriminate].
      exact (greedy_ws_digits _ IH _ _ H).
    + destruct s as [|a s']; [discriminate|].
      destruct (Re.is_digit a) eqn:Ha; [|discriminate].
      destruct (Re.match_here p' s') as [r'|] eqn:E; [|discriminate].
      injection H as <-. constructor; [exact Ha | exact (IH _ _ E)].
Qed.

Lemma search_digits (p : list Re.elem) :
  forall s r, Re.search p s = Some r -> Forall (fun a => Re.is_digit a = true) r.
Proof.
  induction s as [|a s' IH]; intros r H; cbn [Re.search] in H.
  - destruct (Re.match_here p "") as [r'|] eqn:E; [|discriminate].
    injection H as <-. exact (match_here_digits _ _ _ E).
  - destruct (Re.match_here p (String a s')) as [r'|] eqn:E.
    + injection H as <-. exact (match_here_digits _ _ _ E).
    + exact (IH _ H).
Qed.

(** The years read from a header lie between 0 and 9999. *)
Lemma search_years_range (line : string) (start_year end_year : Z) :
  search_years line = Some (start_year, end_year) ->
  (0 <= start_year <= 9999)%Z /\ (0 <= end_year <= 9999)%Z.
Proof.
  unfold search_years. intros H.
  destruct (Re.search COPYRIGHT_PATTERN line) as [r|] eqn:E; [|discriminate].
  pose proof (search_digits _ _ _ E) as Hd.
  destruct r as [|a1 [|a2 [|a3 [|a4 [|b1 [|b2 [|b3 [|b4 [|x r]]]]]]]]]; try discriminate.
  injection H as <- <-.
  repeat match goal with
         | Hf : Forall _ (_ :: _) |- _ => inversion Hf; subst; clear Hf
         end.
  repeat match goal with
         | Hf : Re.is_digit _ = true |- _ => apply digit_value_range in Hf
         end.
  unfold int_of_digits. cbn [fold_left]. lia.
Qed.

(** ** C1: reconciling twice *)

Lemma get_in_values {V : Type} (d : PyDict.dict V) (k : string) (v : V) :
  PyDict.get d k = Some v -> In v (map snd d).
Proof.
  unfold PyDict.get.
  assert (H : forall acc,
             fold_left (fun acc kv => if String.eqb (fst kv) k then Some (snd kv) else acc)
                       d acc = Some v ->
             acc = Some v \/ In v (map snd d)).
  { induction d as [|[k' v'] d' IH]; intros acc Hf; cbn [fold_left map In fst snd] in *.
    - left. exact Hf.
    - destruct (IH _ Hf) as [Hacc | Hin].
      + destruct (String.eqb k' k).
        * injection Hacc as <-. right. left. reflexivity.
        * left. exact Hacc.
      + right. right. exact Hin. }
  intros Hget. destruct (H None Hget) as [Hn | Hin]; [discriminate | exact Hin].
Qed.

Lemma comment_syntax_values (ext comment_prefix : string) :
  PyDict.get COMMENT_SYNTAX ext = Some comment_prefix -> In comment_prefix opening_tokens.
Proof.
  intros H. apply get_in_values in H.
  unfold COMMENT_SYNTAX in H. cbn [map snd In] in H. unfold opening_tokens.
  repeat (destruct H as [<- | H]; [cbn [In]; tauto|]).
  contradiction.
Qed.

Lemma opening_token_clean (comment_prefix : string) :
  In comment_prefix opening_tokens ->
  contains "C" (comment_prefix ++ " ") = false
  /\ contains nl (comment_prefix ++ " ") = false
  /\ contains nl (PyDict.get_default BLOCK_COMMENT_END comment_prefix "") = false.
Proof.
  unfold opening_tokens. cbn [In].
  intros [<- | [<- | [<- | [<- | [<- | [<- | [<- | []]]]]]]]; repeat split.
Qed.

Lemma header_shape (comment_prefix : string) (start_year end_year : Z) :
  format_copyright_line comment_prefix start_year end_year =
  (comment_prefix ++ " ")
  ++ attribution_text (PyStr.str start_year) (PyStr.str end_year)
       (PyDict.get_default BLOCK_COMMENT_END comment_prefix "").
Proof.
  unfold format_copyright_line, attribution_text. rewrite template_format.
  repeat rewrite append_assoc. reflexivity.
Qed.

Lemma search_of_match (p : list Re.elem) (s : string) (r : Re.captures) :
  Re.match_here p s = Some r -> Re.search p s = Some r.
Proof. intros H. destruct s; cbn [Re.search]; rewrite H; reflexivity. Qed.

Section FormattedHeader.

Variable comment_prefix : string.
Variables start_year end_year : Z.
Hypothesis Htoken : In comment_prefix opening_tokens.
Hypothesis Hstart : four_digits start_year = true.
Hypothesis Hend : four_digits end_year = true.

(** The pattern finds in a formatted header the years it was made of. *)
Lemma search_header :
  search_years (format_copyright_line comment_prefix start_year end_year)
  = Some (start_year, end_year).
Proof.
  destruct (opening_token_clean _ Htoken) as [HC _].
  rewrite header_shape. unfold search_years. rewrite search_skip by exact HC.
  unfold four_digits in Hstart, Hend.
  destruct (PyStr.str start_year) as [|d1 [|d2 [|d3 [|d4 [|? ?]]]]]; try discriminate.
  destruct (PyStr.str end_year) as [|e1 [|e2 [|e3 [|e4 [|? ?]]]]]; try discriminate.
  repeat match goal with
         | H : _ && _ = true |- _ => apply andb_true_iff in H; destruct H
         end.
  rewrite (search_of_match _ _ [d1; d2; d3; d4; e1; e2; e3; e4]).
  - f_equal. f_equal; apply Z.eqb_eq; assumption.
  - apply (match_attribution d1 d2 d3 d4 e1 e2 e3 e4); assumption.
Qed.

Lemma header_clean :
  contains nl (format_copyright_line comment_prefix start_year end_year) = false.
Proof.
  destruct (opening_token_clean _ Htoken) as [_ [Hp Hb]].
  rewrite header_shape, contains_app, Hp. cbn [orb].
  unfold four_digits in Hstart, Hend.
  destruct (PyStr.str start_year) as [|d1 [|d2 [|d3 [|d4 [|? ?]]]]]; try discriminate.
  destruct (PyStr.str end_year) as [|e1 [|e2 [|e3 [|e4 [|? ?]]]]]; try discriminate.
  repeat match goal with
         | H : _ && _ = true |- _ => apply andb_true_iff in H; destruct H
         end.
  apply (attribution_clean d1 d2 d3 d4 e1 e2 e3 e4); assumption.
Qed.

End FormattedHeader.




Lemma reconcile_current (content comment_prefix : string) (current_year start_year : Z) :
  search_years (first_line_of content) = Some (start_year, current_year) ->
  reconcile content comment_prefix current_year
  = Return (mkResult ok HeaderIsCurrent, None).
Proof.
  intros H. unfold reconcile. rewrite H, Z.eqb_refl. reflexivity.
Qed.

(** C1 (the code departs from it). A header whose start year has a
    leading zero is a header for the pattern, and [reconcile] rewrites it
    with the year as an integer, without padding ([0021] becomes [21]);
    the pattern asks for four digits and does not read the line the code
    has just written, so the second run reports [added] and puts one more
    header in front.  A target year that is not written with four digits
    gives the same: every run adds a header. *)
Lemma reconcile_twice_adds_again :
  (let c0 := "# Copyright 0021-2023 Hewlett Packard Enterprise Development LP" in
   let c1 := "# Copyright 21-2025 Hewlett Packard Enterprise Development LP" in
   let h := "# Copyright 2025-2025 Hewlett Packard Enterprise Development LP" in
   PyDict.get COMMENT_SYNTAX ".py" = Some "#"
   /\ reconcile c0 "#" 2025
      = Return (mkResult updated (UpdatedYear 21 2023 2025), Some c1)
   /\ reconcile c1 "#" 2025
      = Return (mkResult added (AddedHeader 2025), Some (h ++ NL ++ c1)))
  /\ (let c1 := "# Copyright 5-5 Hewlett Packard Enterprise Development LP" ++ NL in
      reconcile "" "#" 5 = Return (mkResult added (AddedHeader 5), Some c1)
      /\ reconcile c1 "#" 5
         = Return (mkResult added (AddedHeader 5),
                   Some ("# Copyright 5-5 Hewlett Packard Enterprise Development LP"
                         ++ NL ++ c1))).
Proof. repeat split. Qed.

(** [reconcile] returns on every input: the assignment to [lines[0]] is
    only reached with a first line. *)
Lemma reconcile_returns (content comment_prefix : string) (current_year : Z) :
  exists r, reconcile content comment_prefix current_year = Return r.
Proof.
  destruct (search_years (first_line_of content)) as [[start_year end_year]|] eqn:Hsearch.
  - destruct (Z.eq_dec end_year current_year) as [-> | Hne].
    + eexists. exact (reconcile_current _ _ _ _ Hsearch).
    + eexists. exact (reconcile_updated _ _ _ _ _ Hsearch Hne).
  - eexists. exact (reconcile_added _ _ _ Hsearch).
Qed.



(** * Further properties of the program *)

From Stdlib Require Import Sorted Permutation.

(** ** The store *)

Lemma path_eqb_eq (p q : Path) : path_eqb p q = true <-> p = q.
Proof.
  unfold path_eqb. destruct (list_eq_dec string_dec p q); split; intros H;
    try reflexivity; try assumption; try discriminate; contradiction.
Qed.

Lemma path_eqb_refl (p : Path) : path_eqb p p = true.
Proof. apply path_eqb_eq. reflexivity. Qed.

Lemma path_eqb_neq (p q : Path) : p <> q -> path_eqb p q = false.
Proof.
  intros H. destruct (path_eqb p q) eqn:E; [|reflexivity].
  apply path_eqb_eq in E. contradiction.
Qed.

Lemma lookup_store_same (p : Path) (n : node) (l : list (Path * node)) :
  lookup p (store p n l) = Some n.
Proof.
  induction l as [|[q m] l' IH]; simpl.
  - rewrite path_eqb_refl. reflexivity.
  - destruct (path_eqb q p) eqn:E; simpl; rewrite E; [reflexivity | exact IH].
Qed.

Lemma lookup_store_other (p q : Path) (n : node) (l : list (Path * node)) :
  q <> p -> lookup q (store p n l) = lookup q l.
Proof.
  intros Hne. induction l as [|[x m] l' IH]; simpl.
  - rewrite path_eqb_neq by (intros E; apply Hne; symmetry; exact E). reflexivity.
  - destruct (path_eqb x p) eqn:E; simpl.
    + apply path_eqb_eq in E. subst x.
      rewrite path_eqb_neq by (intros E; apply Hne; symmetry; exact E). reflexivity.
    + destruct (path_eqb x q); [reflexivity | exact IH].
Qed.

Lemma read_text_world (p : Path) (w : World) :
  snd (read_text p w) = log (OpenForRead p) w.
Proof.
  unfold read_text. destruct (lookup p (nodes w)) as [[|f]|]; try reflexivity.
  destruct (readable f); [destruct (data f)|]; reflexivity.
Qed.

(** ** [check_and_fix_file], step by step *)

Lemma check_and_fix_file_steps
      (file_path : Path) (current_year : Z) (dry_run : bool) (w : World)
      (comment_prefix : string) :
  get_comment_syntax file_path = Some comment_prefix ->
  check_and_fix_file file_path current_year dry_run w =
  match fst (read_text file_path w) with
  | Raise e =>
      if caught e then
        (Return (mkResult error (ExceptionText e)), log (OpenForRead file_path) w)
      else (Raise e, log (OpenForRead file_path) w)
  | Return content =>
      match reconcile content comment_prefix current_year with
      | Raise e => (Raise e, log (OpenForRead file_path) w)
      | Return (res, None) => (Return res, log (OpenForRead file_path) w)
      | Return (res, Some new_content) =>
          if dry_run then (Return res, log (OpenForRead file_path) w)
          else
            match write_text file_path new_content (log (OpenForRead file_path) w) with
            | (Return _, w') => (Return res, w')
            | (Raise e, w') => (Raise e, w')
            end
      end
  end.
Proof.
  intros Hsyn. unfold check_and_fix_file. rewrite Hsyn.
  unfold bind, try_except, ret, raise.
  pose proof (read_text_world file_path w) as Hw.
  destruct (read_text file_path w) as [[content|e] w1]; cbn [fst snd] in *; subst w1.
  - destruct (reconcile content comment_prefix current_year) as [[res [new_content|]]|e];
      try reflexivity.
    destruct dry_run; reflexivity.
  - destruct e; reflexivity.
Qed.

(** ** Dry runs *)

(** In a dry run [check_and_fix_file] opens the file for reading at most,
    and does nothing else to the world. *)
Theorem dry_run_only_reads (file_path : Path) (current_year : Z) (w : World) :
  snd (check_and_fix_file file_path current_year true w) = w
  \/ snd (check_and_fix_file file_path current_year true w)
     = log (OpenForRead file_path) w.
Proof.
  destruct (get_comment_syntax file_path) as [comment_prefix|] eqn:Hsyn.
  - right. rewrite (check_and_fix_file_steps _ _ _ _ _ Hsyn).
    destruct (fst (read_text file_path w)) as [content|e].
    + destruct (reconcile content comment_prefix current_year) as [[res [c|]]|e];
        reflexivity.
    + destruct (caught e); reflexivity.
  - left. unfold check_and_fix_file. rewrite Hsyn. reflexivity.
Qed.

(** ** What a call may change *)

(** The status tells what [reconcile] wants written. *)
Lemma reconcile_status (content comment_prefix : string) (current_year : Z)
      (res : result) (new_content : option string) :
  reconcile content comment_prefix current_year = Return (res, new_content) ->
  (new_content = None /\ result_status res = ok)
  \/ (new_content <> None
      /\ (result_status res = added \/ result_status res = updated)).
Proof.
  unfold reconcile.
  destruct (search_years (first_line_of content)) as [[start_year end_year]|].
  - destruct (Z.eqb end_year current_year).
    + intros H. injection H as <- <-. left. split; reflexivity.
    + destruct (lines_of content); [discriminate|].
      intros H. injection H as <- <-. right. split; [discriminate | right; reflexivity].
  - intros H. injection H as <- <-. right. split; [discriminate | left; reflexivity].
Qed.

(** A call that returns a status other than [added] and [updated] has
    written nothing: the store is as it was. *)
Theorem only_added_and_updated_write
        (file_path : Path) (current_year : Z) (dry_run : bool) (w : World)
        (res : result) :
  fst (check_and_fix_file file_path current_year dry_run w) = Return res ->
  result_status res <> added ->
  result_status res <> updated ->
  nodes (snd (check_and_fix_file file_path current_year dry_run w)) = nodes w.
Proof.
  intros Hres Hadd Hupd.
  destruct (get_comment_syntax file_path) as [comment_prefix|] eqn:Hsyn.
  - rewrite (check_and_fix_file_steps _ _ _ _ _ Hsyn) in *.
    destruct (fst (read_text file_path w)) as [content|e].
    + destruct (reconcile content comment_prefix current_year) as [[res' [c|]]|e] eqn:Hrec;
        try reflexivity.
      destruct (reconcile_status _ _ _ _ _ Hrec) as [[Hnone _] | [_ Hst]];
        [discriminate|].
      destruct dry_run; [reflexivity|].
      destruct (write_text file_path c (log (OpenForRead file_path) w)) as [[u|e] w'];
        cbn [fst] in Hres; [|discriminate].
      injection Hres as ->. destruct Hst; contradiction.
    + destruct (caught e); reflexivity.
  - unfold check_and_fix_file. rewrite Hsyn. reflexivity.
Qed.

Lemma only_added_and_updated_write_witness :
  let c_html := ["/"; "r"; "c.html"] in
  let content :=
    "<!-- Copyright 2025-2025 Hewlett Packard Enterprise Development LP -->" in
  let w := mkWorld [(c_html, File (mkFile (Text content) true true))] [] in
  nodes (snd (check_and_fix_file c_html 2025 false w)) = nodes w.
Proof.
  intros c_html content w.
  apply (only_added_and_updated_write c_html 2025 false w (mkResult ok HeaderIsCurrent)).
  - reflexivity.
  - discriminate.
  - discriminate.
Defined.

(** When it is not a dry run and the file can be read and written, the
    content [reconcile] asks for is what the file holds afterwards; the
    file keeps its permissions and was opened once to read and once to
    write. *)
Theorem new_content_is_stored
        (file_path : Path) (current_year : Z) (w : World) (f : file)
        (content comment_prefix : string) (res : result) (new_content : string) :
  get_comment_syntax file_path = Some comment_prefix ->
  lookup file_path (nodes w) = Some (File f) ->
  data f = Text content ->
  readable f = true ->
  writable f = true ->
  reconcile content comment_prefix current_year = Return (res, Some new_content) ->
  fst (check_and_fix_file file_path current_year false w) = Return res
  /\ lookup file_path (nodes (snd (check_and_fix_file file_path current_year false w)))
     = Some (File (mkFile (Text new_content) true true))
  /\ trace (snd (check_and_fix_file file_path current_year false w))
     = (trace w ++ [OpenForRead file_path; OpenForWrite file_path])%list.
Proof.
  intros Hsyn Hlook Hdata Hread Hwrite Hrec.
  rewrite (check_and_fix_file_steps _ _ _ _ _ Hsyn).
  unfold read_text. rewrite Hlook, Hread, Hdata. cbn [fst]. rewrite Hrec.
  unfold write_text. cbn [nodes log]. rewrite Hlook, Hwrite, Hread.
  cbn [fst snd nodes trace log]. repeat split.
  - apply lookup_store_same.
  - rewrite <- app_assoc. reflexivity.
Qed.

Lemma new_content_is_stored_witness :
  let a_py := ["/"; "r"; "a.py"] in
  let w := mkWorld [(a_py, File (mkFile (Text "print(1)") true true))] [] in
  lookup a_py (nodes (snd (check_and_fix_file a_py 2025 false w)))
  = Some (File (mkFile (Text ("# Copyright 2025-2025 Hewlett Packard Enterprise Development LP"
                              ++ NL ++ "print(1)")) true true)).
Proof.
  intros a_py w.
  refine (proj1 (proj2 (new_content_is_stored a_py 2025 w
                          (mkFile (Text "print(1)") true true) "print(1)" "#"
                          (mkResult added (AddedHeader 2025)) _ _ _ _ _ _ _)));
    reflexivity.
Defined.

Lemma read_failure_is_local_witness :
  let a_py := ["/"; "r"; "a.py"] in
  let w := mkWorld [(a_py, File (mkFile Undecodable true true))] [] in
  check_and_fix_file a_py 2025 false w
  = (Return (mkResult error (ExceptionText UnicodeDecodeError)), log (OpenForRead a_py) w).
Proof.
  intros a_py w.
  apply (read_failure_is_local a_py 2025 false w "#" UnicodeDecodeError).
  - reflexivity.
  - reflexivity.
  - left. reflexivity.
Defined.

(** ** The loop of [main] *)

Lemma results_count_append (rs : results) (s : status) (x : Path * message) :
  results_count (results_append rs s x) = S (results_count rs).
Proof.
  destruct s; unfold results_count, results_append;
    cbn [results_ok results_added results_updated results_skipped results_error];
    rewrite length_app; cbn [List.length]; lia.
Qed.

Lemma recorded_append (rs : results) (s : status) (x : Path * message) :
  Permutation (recorded (results_append rs s x)) (x :: recorded rs).
Proof.
  destruct s; unfold recorded, results_append;
    cbn [results_ok results_added results_updated results_skipped results_error];
    repeat rewrite <- app_assoc; cbn [app];
    repeat rewrite <- Permutation_middle; rewrite ?app_nil_r; reflexivity.
Qed.

(** When the loop of [main] ends without an exception, the paths recorded
    in the five lists of the results, taken together, are those recorded
    before and the files the loop was given, each file once for each time
    it was given: no file is left out, none is recorded under two
    statuses, and no other path is recorded.  The number of entries grows
    by the number of files. *)
Theorem one_status_per_file
        (files : list Path) (current_year : Z) (dry_run : bool)
        (rs rs' : results) (w : World) :
  fst (main_loop files current_year dry_run rs w) = Return rs' ->
  Permutation (map fst (recorded rs')) (map fst (recorded rs) ++ files)
  /\ results_count rs' = (results_count rs + List.length files)%nat.
Proof.
  revert rs w. induction files as [|file_path more IH]; intros rs w H.
  - cbn in H. injection H as <-. rewrite app_nil_r. cbn [List.length].
    split; [reflexivity | lia].
  - cbn [main_loop] in H. unfold bind in H.
    destruct (check_and_fix_file file_path current_year dry_run w) as [[res|e] w1];
      [|discriminate].
    destruct (IH _ _ H) as [Hperm Hcount]. split.
    + rewrite Hperm.
      rewrite (Permutation_map fst (recorded_append rs (result_status res)
                                      (file_path, result_message res))).
      cbn [map fst app]. apply Permutation_middle.
    + rewrite Hcount, results_count_append. cbn [List.length]. lia.
Qed.

Lemma one_status_per_file_witness :
  let a_py := ["/"; "r"; "a.py"] in
  let d_xyz := ["/"; "r"; "d.xyz"] in
  let w := mkWorld [(a_py, File (mkFile (Text "print(1)") true true));
                    (d_xyz, File (mkFile (Text "data") true true))] [] in
  let rs' := mkResults [] [(a_py, AddedHeader 2025)] [] [(d_xyz, UnknownFileType)] [] in
  fst (main_loop [d_xyz; a_py] 2025 false no_results w) = Return rs'
  /\ Permutation (map fst (recorded rs')) (map fst (recorded no_results) ++ [d_xyz; a_py])
  /\ results_count rs' = (results_count no_results + List.length [d_xyz; a_py])%nat.
Proof.
  intros a_py d_xyz w rs'. split; [reflexivity|].
  apply (one_status_per_file [d_xyz; a_py] 2025 false no_results rs' w).
  reflexivity.
Defined.

Lemma dry_run_nodes (file_path : Path) (current_year : Z) (w : World) :
  nodes (snd (check_and_fix_file file_path current_year true w)) = nodes w.
Proof.
  destruct (get_comment_syntax file_path) as [comment_prefix|] eqn:Hsyn.
  - rewrite (check_and_fix_file_steps _ _ _ _ _ Hsyn).
    destruct (fst (read_text file_path w)) as [content|e].
    + destruct (reconcile content comment_prefix current_year) as [[res [c|]]|e];
        reflexivity.
    + destruct (caught e); reflexivity.
  - unfold check_and_fix_file. rewrite Hsyn. reflexivity.
Qed.

Lemma main_loop_dry_nodes (files : list Path) (current_year : Z) (rs : results) (w : World) :
  nodes (snd (main_loop files current_year true rs w)) = nodes w.
Proof.
  revert rs w. induction files as [|file_path more IH]; intros rs w.
  - reflexivity.
  - cbn [main_loop]. unfold bind.
    pose proof (dry_run_nodes file_path current_year w) as Hn.
    destruct (check_and_fix_file file_path current_year true w) as [[res|e] w1];
      cbn [snd] in *.
    + rewrite IH. exact Hn.
    + exact Hn.
Qed.

Lemma read_of_file (file_path : Path) (w : World) :
  is_file file_path w = true ->
  (exists content, fst (read_text file_path w) = Return content)
  \/ (exists e, fst (read_text file_path w) = Raise e /\ caught e = true).
Proof.
  unfold is_file, read_text. intros H.
  destruct (lookup file_path (nodes w)) as [[|f]|]; try discriminate.
  destruct (readable f).
  - destruct (data f) as [content|].
    + left. exists content. reflexivity.
    + right. exists UnicodeDecodeError. split; reflexivity.
  - right. exists PermissionError. split; reflexivity.
Qed.

Lemma dry_run_returns (file_path : Path) (current_year : Z) (w : World) :
  is_file file_path w = true ->
  exists res, fst (check_and_fix_file file_path current_year true w) = Return res.
Proof.
  intros Hfile.
  destruct (get_comment_syntax file_path) as [comment_prefix|] eqn:Hsyn.
  - rewrite (check_and_fix_file_steps _ _ _ _ _ Hsyn).
    destruct (read_of_file _ _ Hfile) as [[content ->] | [e [-> ->]]].
    + destruct (reconcile_returns content comment_prefix current_year) as [[res c] ->].
      destruct c; eexists; reflexivity.
    + eexists. reflexivity.
  - unfold check_and_fix_file. rewrite Hsyn. eexists. reflexivity.
Qed.

(** A dry run over regular files always ends without an exception,
    whatever the files hold and whether or not they can be read, and it
    leaves the store as it was. *)
Theorem dry_scan_completes
        (files : list Path) (current_year : Z) (rs : results) (w : World) :
  (forall file_path, In file_path files -> is_file file_path w = true) ->
  (exists rs', fst (main_loop files current_year true rs w) = Return rs')
  /\ nodes (snd (main_loop files current_year true rs w)) = nodes w.
Proof.
  intros Hfiles. split; [|apply main_loop_dry_nodes].
  revert rs w Hfiles. induction files as [|file_path more IH]; intros rs w Hfiles.
  - eexists. reflexivity.
  - cbn [main_loop]. unfold bind.
    destruct (dry_run_returns file_path current_year w (Hfiles _ (or_introl eq_refl)))
      as [res Hres].
    pose proof (dry_run_nodes file_path current_year w) as Hn.
    destruct (check_and_fix_file file_path current_year true w) as [[res'|e] w1];
      cbn [fst snd] in *; [|discriminate].
    apply IH. intros p Hp. unfold is_file. rewrite Hn.
    exact (Hfiles p (or_intror Hp)).
Qed.

Lemma dry_scan_completes_witness :
  let a_py := ["/"; "r"; "a.py"] in
  let b_py := ["/"; "r"; "b.py"] in
  let w := mkWorld [(a_py, File (mkFile (Text "print(1)") true false));
                    (b_py, File (mkFile Undecodable true true))] [] in
  (exists rs', fst (main_loop [a_py; b_py] 2025 true no_results w) = Return rs')
  /\ nodes (snd (main_loop [a_py; b_py] 2025 true no_results w)) = nodes w.
Proof.
  intros a_py b_py w.
  apply (dry_scan_completes [a_py; b_py] 2025 no_results w).
  intros file_path [<- | [<- | []]]; reflexivity.
Defined.

Lemma writable_file_returns
      (file_path : Path) (current_year : Z) (dry_run : bool) (w : World) :
  writable_file file_path w = true ->
  exists res, fst (check_and_fix_file file_path current_year dry_run w) = Return res.
Proof.
  intros Hwr.
  destruct (get_comment_syntax file_path) as [comment_prefix|] eqn:Hsyn.
  - rewrite (check_and_fix_file_steps _ _ _ _ _ Hsyn).
    assert (Hfile : is_file file_path w = true).
    { unfold writable_file in Hwr. unfold is_file.
      destruct (lookup file_path (nodes w)) as [[|f]|]; try discriminate. reflexivity. }
    destruct (read_of_file _ _ Hfile) as [[content ->] | [e [-> ->]]].
    + destruct (reconcile_returns content comment_prefix current_year) as [[res c] ->].
      destruct c as [c|]; [|eexists; reflexivity].
      destruct dry_run; [eexists; reflexivity|].
      unfold write_text, writable_file in *. cbn [nodes log].
      destruct (lookup file_path (nodes w)) as [[|f]|]; try discriminate.
      rewrite Hwr. eexists. reflexivity.
    + eexists. reflexivity.
  - unfold check_and_fix_file. rewrite Hsyn. eexists. reflexivity.
Qed.

Lemma write_keeps_writable (p q : Path) (content : string) (w : World) :
  writable_file q w = true ->
  writable_file q (snd (write_text p content w)) = true.
Proof.
  intros Hq. unfold write_text.
  destruct (lookup p (nodes w)) as [[|f]|] eqn:Hp; cbn [snd].
  - exact Hq.
  - destruct (writable f) eqn:Hf; cbn [snd]; [|exact Hq].
    unfold writable_file in *. cbn [nodes log].
    destruct (list_eq_dec string_dec q p) as [-> | Hne].
    + rewrite lookup_store_same. reflexivity.
    + rewrite lookup_store_other by exact Hne. exact Hq.
  - unfold writable_file in *. cbn [nodes log].
    destruct (list_eq_dec string_dec q p) as [-> | Hne].
    + rewrite Hp in Hq. discriminate.
    + rewrite lookup_store_other by exact Hne. exact Hq.
Qed.

Lemma check_keeps_writable
      (file_path q : Path) (current_year : Z) (dry_run : bool) (w : World) :
  writable_file q w = true ->
  writable_file q (snd (check_and_fix_file file_path current_year dry_run w)) = true.
Proof.
  intros Hq.
  destruct (get_comment_syntax file_path) as [comment_prefix|] eqn:Hsyn.
  - rewrite (check_and_fix_file_steps _ _ _ _ _ Hsyn).
    destruct (fst (read_text file_path w)) as [content|e].
    + destruct (reconcile content comment_prefix current_year) as [[res [c|]]|e];
        try exact Hq.
      destruct dry_run; [exact Hq|].
      pose proof (write_keeps_writable file_path q c (log (OpenForRead file_path) w) Hq)
        as Hw.
      destruct (write_text file_path c (log (OpenForRead file_path) w)) as [[u|e] w'];
        exact Hw.
    + destruct (caught e); exact Hq.
  - unfold check_and_fix_file. rewrite Hsyn. exact Hq.
Qed.

(** When every file given to the loop of [main] is a regular file that
    may be written, the loop ends without an exception, in every mode:
    files that cannot be read or decoded get the status [error] and the
    loop goes on. *)
Theorem scan_of_writable_files_completes
        (files : list Path) (current_year : Z) (dry_run : bool)
        (rs : results) (w : World) :
  (forall file_path, In file_path files -> writable_file file_path w = true) ->
  exists rs', fst (main_loop files current_year dry_run rs w) = Return rs'.
Proof.
  revert rs w. induction files as [|file_path more IH]; intros rs w Hfiles.
  - eexists. reflexivity.
  - cbn [main_loop]. unfold bind.
    destruct (writable_file_returns file_path current_year dry_run w
                (Hfiles _ (or_introl eq_refl))) as [res Hres].
    pose proof (fun q => check_keeps_writable file_path q current_year dry_run w) as Hk.
    destruct (check_and_fix_file file_path current_year dry_run w) as [[res'|e] w1];
      cbn [fst snd] in *; [|discriminate].
    apply IH. intros p Hp. apply Hk. exact (Hfiles p (or_intror Hp)).
Qed.

Lemma scan_of_writable_files_completes_witness :
  let a_py := ["/"; "r"; "a.py"] in
  let b_py := ["/"; "r"; "b.py"] in
  let w := mkWorld [(a_py, File (mkFile (Text "print(1)") false true));
                    (b_py, File (mkFile (Text "print(2)") true true))] [] in
  exists rs', fst (main_loop [a_py; b_py] 2025 false no_results w) = Return rs'.
Proof.
  intros a_py b_py w.
  apply (scan_of_writable_files_completes [a_py; b_py] 2025 false no_results w).
  intros file_path [<- | [<- | []]]; reflexivity.
Defined.

(** ** Discovery *)

Lemma find_files_loop_filter
      (repo_root : Path) (patterns : list string) (w : World) (candidates : list Path) :
  (forall p, In p candidates -> below repo_root p = true) ->
  find_files_loop repo_root patterns w candidates
  = Return (filter (kept repo_root patterns w) candidates).
Proof.
  induction candidates as [|file_path more IH]; intros Hbelow.
  - reflexivity.
  - cbn [find_files_loop filter].
    rewrite IH by (intros p Hp; apply Hbelow; right; exact Hp).
    unfold kept.
    assert (Hb : below repo_root file_path = true) by (apply Hbelow; left; reflexivity).
    unfold below in Hb. unfold should_ignore.
    destruct (relative_to file_path repo_root) as [rel_path|]; [|discriminate].
    destruct (is_file file_path w); cbn [andb]; [|reflexivity].
    destruct (existsb (fun part => startswith part ".") file_path); cbn [andb negb];
      [reflexivity|].
    destruct (existsb _ patterns); cbn [andb]; [reflexivity|].
    destruct (get_comment_syntax file_path); reflexivity.
Qed.

Lemma rglob_below (repo_root : Path) (w : World) (p : Path) :
  In p (rglob repo_root w) -> below repo_root p = true.
Proof. unfold rglob. intros H. apply filter_In in H. apply H. Qed.

Lemma find_files_value (repo_root : Path) (patterns : list string) (w : World) :
  find_files repo_root patterns w
  = Return (sorted (filter (kept repo_root patterns w) (rglob repo_root w))).
Proof.
  unfold find_files.
  rewrite find_files_loop_filter by apply rglob_below. reflexivity.
Qed.

Lemma insert_sorted_perm (p : Path) (l : list Path) :
  Permutation (insert_sorted p l) (p :: l).
Proof.
  induction l as [|q l' IH]; cbn [insert_sorted].
  - apply Permutation_refl.
  - destruct (path_leb p q).
    + apply Permutation_refl.
    + apply perm_trans with (q :: p :: l').
      * apply perm_skip. exact IH.
      * apply perm_swap.
Qed.

Lemma sorted_perm (l : list Path) : Permutation (sorted l) l.
Proof.
  unfold sorted. induction l as [|p l' IH]; cbn [fold_right].
  - apply perm_nil.
  - apply perm_trans with (p :: fold_right insert_sorted [] l').
    + apply insert_sorted_perm.
    + apply perm_skip. exact IH.
Qed.

Lemma string_compare_eq (x y : string) : String.compare x y = Eq <-> x = y.
Proof.
  split.
  - apply String.compare_eq_iff.
  - intros ->. pose proof (String.compare_antisym y y) as H.
    destruct (String.compare y y); try reflexivity; discriminate.
Qed.

(** Of two paths, one is not after the other. *)
Lemma path_leb_total (p q : Path) : path_leb p q = false -> path_leb q p = true.
Proof.
  unfold path_leb. intros H.
  rewrite (list_compare_antisym String.compare string_compare_eq p q)
    by (intros x y; apply String.compare_antisym).
  destruct (list_compare String.compare p q); try discriminate. reflexivity.
Qed.

Lemma insert_sorted_sorted (p : Path) (l : list Path) :
  Sorted path_le l -> Sorted path_le (insert_sorted p l).
Proof.
  induction l as [|q l' IH]; intros Hs; cbn [insert_sorted].
  - constructor; constructor.
  - destruct (path_leb p q) eqn:E.
    + constructor; [exact Hs | constructor; exact E].
    + inversion Hs as [|? ? Hs' Hhd]; subst.
      constructor; [apply IH; exact Hs'|].
      destruct l' as [|r l'']; cbn [insert_sorted].
      * constructor. apply path_leb_total. exact E.
      * destruct (path_leb p r).
        -- constructor. apply path_leb_total. exact E.
        -- inversion Hhd; subst. constructor. assumption.
Qed.

Lemma sorted_sorted (l : list Path) : Sorted path_le (sorted l).
Proof.
  unfold sorted. induction l as [|p l' IH]; cbn [fold_right].
  - constructor.
  - apply insert_sorted_sorted. exact IH.
Qed.

(** The files [find_files] returns are exactly the entries of the store
    below the root that are regular files, have no part starting with a
    dot in their whole path, are not ignored by the patterns, and have a
    comment syntax. *)
Theorem find_files_exact
        (repo_root : Path) (patterns : list string) (w : World) (files : list Path) :
  find_files repo_root patterns w = Return files ->
  forall file_path,
    In file_path files <->
    (In file_path (map fst (nodes w))
     /\ below repo_root file_path = true
     /\ is_file file_path w = true
     /\ existsb (fun part => startswith part ".") file_path = false
     /\ should_ignore file_path repo_root patterns = Return false
     /\ get_comment_syntax file_path <> None).
Proof.
  rewrite find_files_value. intros Hret. injection Hret as <-.
  intros file_path. split.
  - intros H. apply (Permutation_in _ (sorted_perm _)) in H.
    apply filter_In in H. destruct H as [Hin Hkept].
    unfold rglob in Hin. apply filter_In in Hin. destruct Hin as [Hin Hbelow].
    unfold kept in Hkept.
    repeat (apply andb_true_iff in Hkept; destruct Hkept as [Hkept ?]).
    repeat split; try assumption.
    + apply negb_true_iff. assumption.
    + destruct (should_ignore file_path repo_root patterns) as [[|]|];
        try discriminate; reflexivity.
    + destruct (get_comment_syntax file_path); discriminate.
  - intros [Hin [Hbelow [Hfile [Hdot [Hign Hsyn]]]]].
    apply (Permutation_in _ (Permutation_sym (sorted_perm _))).
    apply filter_In. split.
    + unfold rglob. apply filter_In. split; assumption.
    + unfold kept. rewrite Hfile, Hdot, Hign.
      destruct (get_comment_syntax file_path); [reflexivity | contradiction].
Qed.

Lemma find_files_exact_witness :
  let repo_root := ["/"; "r"] in
  let a_py := ["/"; "r"; "src"; "a.py"] in
  let w := mkWorld [(["/"; "r"; "src"], Dir);
                    (a_py, File (mkFile (Text "x") true true));
                    (["/"; "r"; "src"; ".b.py"], File (mkFile (Text "y") true true));
                    (["/"; "r"; "build"; "c.py"], File (mkFile (Text "z") true true));
                    (["/"; "r"; "d.xyz"], File (mkFile (Text "t") true true))] [] in
  find_files repo_root ["build/"] w = Return [a_py]
  /\ (In a_py [a_py] <->
      (In a_py (map fst (nodes w))
       /\ below repo_root a_py = true
       /\ is_file a_py w = true
       /\ existsb (fun part => startswith part ".") a_py = false
       /\ should_ignore a_py repo_root ["build/"] = Return false
       /\ get_comment_syntax a_py <> None)).
Proof.
  intros repo_root a_py w. split; [reflexivity|].
  apply (find_files_exact repo_root ["build/"] w [a_py]). reflexivity.
Defined.

(** The list [find_files] returns is in the order of [sorted], each path
    not after the next one; sorting loses and repeats no file, so the
    list has no repetition when the store lists each path once. *)
Theorem find_files_sorted
        (repo_root : Path) (patterns : list string) (w : World) (files : list Path) :
  find_files repo_root patterns w = Return files ->
  Sorted path_le files
  /\ Permutation files (filter (kept repo_root patterns w) (rglob repo_root w))
  /\ (NoDup (map fst (nodes w)) -> NoDup files).
Proof.
  rewrite find_files_value. intros H. injection H as <-.
  split; [apply sorted_sorted|]. split; [apply sorted_perm|].
  intros Hnd.
  apply (Permutation_NoDup (Permutation_sym (sorted_perm _))).
  apply NoDup_filter. unfold rglob. apply NoDup_filter. exact Hnd.
Qed.

Lemma find_files_sorted_witness :
  let repo_root := ["/"; "r"] in
  let w := mkWorld [(["/"; "r"; "z.py"], File (mkFile (Text "x") true true));
                    (["/"; "r"; "a"], Dir);
                    (["/"; "r"; "a"; "m.go"], File (mkFile (Text "y") true true));
                    (["/"; "r"; "B.sh"], File (mkFile (Text "z") true true))] [] in
  let files := [["/"; "r"; "B.sh"]; ["/"; "r"; "a"; "m.go"]; ["/"; "r"; "z.py"]] in
  Sorted path_le files
  /\ Permutation files (filter (kept repo_root [] w) (rglob repo_root w))
  /\ (NoDup (map fst (nodes w)) -> NoDup files).
Proof.
  intros repo_root w files.
  apply (find_files_sorted repo_root [] w files). reflexivity.
Defined.

(** ** The ignore files *)

Lemma rstrip_space_cons (a : ascii) (s : string) :
  rstrip_space (String a s) =
  match rstrip_space s with
  | "" => if Re.is_space a then "" else String a ""
  | r => String a r
  end.
Proof. reflexivity. Qed.

Lemma rstrip_space_idem (s : string) : rstrip_space (rstrip_space s) = rstrip_space s.
Proof.
  induction s as [|a s' IH].
  - reflexivity.
  - rewrite rstrip_space_cons.
    destruct (rstrip_space s') as [|b r] eqn:E.
    + destruct (Re.is_space a) eqn:Ha; [reflexivity|].
      rewrite rstrip_space_cons. cbn [rstrip_space]. rewrite Ha. reflexivity.
    + rewrite rstrip_space_cons, IH. reflexivity.
Qed.

Lemma lstrip_space_head (s : string) :
  match lstrip_space s with
  | "" => True
  | String a _ => Re.is_space a = false
  end.
Proof.
  induction s as [|a s' IH]; cbn [lstrip_space].
  - exact I.
  - destruct (Re.is_space a) eqn:Ha; [exact IH | exact Ha].
Qed.

Lemma lstrip_rstrip_head (t : string) :
  match t with "" => True | String a _ => Re.is_space a = false end ->
  lstrip_space (rstrip_space t) = rstrip_space t.
Proof.
  destruct t as [|a t']; intros H.
  - reflexivity.
  - rewrite rstrip_space_cons.
    destruct (rstrip_space t'); [rewrite H|]; cbn [lstrip_space]; rewrite H; reflexivity.
Qed.

(** Stripping what is stripped changes nothing. *)
Lemma strip_idem (s : string) : strip (strip s) = strip s.
Proof.
  unfold strip.
  rewrite (lstrip_rstrip_head _ (lstrip_space_head s)).
  apply rstrip_space_idem.
Qed.

Lemma pattern_lines_clean (content : string) :
  Forall clean_pattern (pattern_lines content).
Proof.
  unfold pattern_lines. apply Forall_forall. intros p Hp.
  apply filter_In in Hp. destruct Hp as [Hin Hcond].
  apply andb_true_iff in Hcond. destruct Hcond as [Hne Hhash].
  apply in_map_iff in Hin. destruct Hin as [line [<- _]].
  repeat split.
  - intros E. rewrite E in Hne. discriminate.
  - apply negb_true_iff. exact Hhash.
  - apply strip_idem.
Qed.

Lemma load_ignore_loop_clean
      (repo_root : Path) (names : list string) (patterns result : list string) (w : World) :
  Forall clean_pattern patterns ->
  fst (load_ignore_loop repo_root names patterns w) = Return result ->
  Forall clean_pattern result.
Proof.
  revert patterns w. induction names as [|n more IH]; intros patterns w Hacc H.
  - cbn in H. injection H as <-. exact Hacc.
  - cbn [load_ignore_loop] in H.
    destruct (path_exists (repo_root ++ [n])%list w); cbn [negb] in H.
    + unfold bind in H.
      destruct (read_text (repo_root ++ [n])%list w) as [[content|e] w1]; [|discriminate].
      apply (IH _ _ (proj2 (Forall_app _ _ _) (conj Hacc (pattern_lines_clean content))) H).
    + exact (IH _ _ Hacc H).
Qed.

(** Every pattern [load_ignore_patterns] returns is non-empty, does not
    start with [#], and has no white space at either end. *)
Theorem loaded_patterns_clean (repo_root : Path) (w : World) (patterns : list string) :
  fst (load_ignore_patterns repo_root w) = Return patterns ->
  forall pattern, In pattern patterns ->
    pattern <> "" /\ startswith pattern "#" = false /\ strip pattern = pattern.
Proof.
  intros H pattern Hin.
  pose proof (load_ignore_loop_clean repo_root _ [] patterns w (Forall_nil _) H) as Hall.
  exact (proj1 (Forall_forall _ _) Hall pattern Hin).
Qed.

Lemma loaded_patterns_clean_witness :
  let repo_root := ["/"; "r"] in
  let gitignore := "# build output" ++ NL ++ "  build/  " ++ NL ++ NL ++ "*.log" in
  let w := mkWorld [(["/"; "r"; ".gitignore"], File (mkFile (Text gitignore) true true))] [] in
  fst (load_ignore_patterns repo_root w) = Return ["build/"; "*.log"]
  /\ startswith "build/" "#" = false
  /\ strip "build/" = "build/".
Proof.
  intros repo_root gitignore w. split; [reflexivity|].
  apply (loaded_patterns_clean repo_root w ["build/"; "*.log"] eq_refl "build/").
  left. reflexivity.
Defined.

Lemma load_ignore_loop_nodes
      (repo_root : Path) (names : list string) (patterns : list string) (w : World) :
  nodes (snd (load_ignore_loop repo_root names patterns w)) = nodes w.
Proof.
  revert patterns w. induction names as [|n more IH]; intros patterns w.
  - reflexivity.
  - cbn [load_ignore_loop].
    destruct (path_exists (repo_root ++ [n])%list w); cbn [negb].
    + unfold bind.
      pose proof (read_text_world (repo_root ++ [n])%list w) as Hw.
      destruct (read_text (repo_root ++ [n])%list w) as [[content|e] w1];
        cbn [snd] in *; subst w1.
      * rewrite IH. reflexivity.
      * reflexivity.
    + apply IH.
Qed.

(** An ignore file that exists and cannot be read as text (no permission,
    not UTF-8, or a directory of that name) is not skipped: with
    [.gitignore] in that state [main] ends with the exception of the read,
    and it has opened nothing but [.gitignore]. *)
Theorem unreadable_gitignore_aborts
        (repo_root : Path) (current_year : Z) (dry_run check_only : bool)
        (w : World) (e : exn) :
  path_exists repo_root w = true ->
  path_exists (repo_root ++ [".gitignore"])%list w = true ->
  fst (read_text (repo_root ++ [".gitignore"])%list w) = Raise e ->
  main repo_root current_year dry_run check_only w
  = (Raise e, log (OpenForRead (repo_root ++ [".gitignore"])%list) w).
Proof.
  intros Hroot Hexists Hread.
  unfold main. rewrite Hroot. cbn [negb].
  unfold bind, load_ignore_patterns. cbn [load_ignore_loop].
  rewrite Hexists. cbn [negb]. unfold bind.
  pose proof (read_text_world (repo_root ++ [".gitignore"])%list w) as Hw.
  destruct (read_text (repo_root ++ [".gitignore"])%list w) as [[content|e'] w1];
    cbn [fst snd] in *; [discriminate|].
  injection Hread as ->. subst w1. reflexivity.
Qed.

Lemma unreadable_gitignore_aborts_witness :
  let repo_root := ["/"; "r"] in
  let gitignore := ["/"; "r"; ".gitignore"] in
  let w := mkWorld [(repo_root, Dir);
                    (gitignore, File (mkFile (Text "build/") false true));
                    (["/"; "r"; "a.py"], File (mkFile (Text "print(1)") true true))] [] in
  main repo_root 2025 false false w = (Raise PermissionError, log (OpenForRead gitignore) w).
Proof.
  intros repo_root gitignore w.
  apply (unreadable_gitignore_aborts repo_root 2025 false false w PermissionError);
    reflexivity.
Defined.

(** With [--dry-run] or [--check-only], [main] leaves the store as it
    was, whatever it holds and however [main] ends. *)
Theorem reporting_modes_change_no_file
        (repo_root : Path) (current_year : Z) (dry_run check_only : bool) (w : World) :
  dry_run || check_only = true ->
  nodes (snd (main repo_root current_year dry_run check_only w)) = nodes w.
Proof.
  intros Hmode. unfold main.
  destruct (path_exists repo_root w); cbn [negb]; [|reflexivity].
  unfold bind.
  pose proof (load_ignore_loop_nodes repo_root [".gitignore"; ".copyrightignore"] [] w)
    as Hload.
  fold (load_ignore_patterns repo_root) in Hload.
  destruct (load_ignore_patterns repo_root w) as [[patterns|e] w1]; cbn [snd] in *;
    [|exact Hload].
  destruct (find_files repo_root patterns w1) as [files|e]; [|exact Hload].
  rewrite Hmode.
  pose proof (main_loop_dry_nodes files current_year no_results w1) as Hloop.
  destruct (main_loop files current_year true no_results w1) as [[rs|e] w2];
    unfold ret; cbn [snd] in *; rewrite Hloop; exact Hload.
Qed.

Lemma reporting_modes_change_no_file_witness :
  let repo_root := ["/"; "r"] in
  let w := mkWorld [(repo_root, Dir);
                    (["/"; "r"; "a.py"], File (mkFile (Text "print(1)") true true))] [] in
  fst (main repo_root 2025 false true w) = Return 1%Z
  /\ nodes (snd (main repo_root 2025 false true w)) = nodes w.
Proof.
  intros repo_root w. split; [reflexivity|].
  apply (reporting_modes_change_no_file repo_root 2025 false true w). reflexivity.
Defined.

(** ** The rules of [should_ignore] *)

Lemma rstrip_cons (c a : ascii) (s : string) :
  rstrip c (String a s) =
  match rstrip c s with
  | "" => if Ascii.eqb a c then "" else String a ""
  | r => String a r
  end.
Proof. reflexivity. Qed.

Lemma endswith_cons (a : ascii) (s suf : string) :
  endswith (String a s) suf = String.eqb (String a s) suf || endswith s suf.
Proof. reflexivity. Qed.

Lemma endswith_contains (c : ascii) (s suf : string) :
  endswith s suf = true -> contains c suf = true -> contains c s = true.
Proof.
  induction s as [|a s' IH]; intros Hend Hc.
  - destruct suf; cbn in Hend, Hc; discriminate.
  - rewrite endswith_cons in Hend. apply orb_true_iff in Hend.
    destruct Hend as [Heq | Hend].
    + apply String.eqb_eq in Heq. subst suf. exact Hc.
    + cbn [contains]. rewrite (IH Hend Hc). apply orb_true_r.
Qed.

Lemma not_endswith (c : ascii) (s suf : string) :
  contains c s = false -> contains c suf = true -> endswith s suf = false.
Proof.
  intros Hs Hsuf. destruct (endswith s suf) eqn:E; [|reflexivity].
  rewrite (endswith_contains c s suf E Hsuf) in Hs. discriminate.
Qed.

Lemma endswith_app (s suf : string) : endswith (s ++ suf) suf = true.
Proof.
  induction s as [|a s' IH].
  - destruct suf; cbn; [reflexivity|].
    rewrite Ascii.eqb_refl, String.eqb_refl. reflexivity.
  - change (String a s' ++ suf) with (String a (s' ++ suf)).
    rewrite endswith_cons, IH. apply orb_true_r.
Qed.

(** Nothing is stripped from a string that does not end with [c]. *)
Lemma rstrip_id (c : ascii) (s : string) :
  endswith s (String c "") = false -> rstrip c s = s.
Proof.
  induction s as [|a s' IH]; intros H.
  - reflexivity.
  - rewrite endswith_cons in H. apply orb_false_iff in H. destruct H as [Heq Hend].
    rewrite rstrip_cons, (IH Hend).
    destruct s' as [|b s'']; [|reflexivity].
    destruct (Ascii.eqb_spec a c) as [->|_]; [|reflexivity].
    rewrite String.eqb_refl in Heq. discriminate.
Qed.

Lemma rstrip_app_char (c : ascii) (s : string) :
  rstrip c (s ++ String c "") = rstrip c s.
Proof.
  induction s as [|a s' IH].
  - cbn. rewrite Ascii.eqb_refl. reflexivity.
  - change (String a s' ++ String c "") with (String a (s' ++ String c "")).
    rewrite !rstrip_cons, IH. reflexivity.
Qed.

Lemma star_dot_prefix (p : string) :
  contains "*" p = false -> startswith p "*." = false.
Proof.
  unfold startswith. destruct p as [|a p']; intros H; [reflexivity|].
  cbn [contains] in H. apply orb_false_iff in H. destruct H as [Ha _].
  cbn [String.prefix]. destruct (ascii_dec "*" a) as [<- | _]; [discriminate | reflexivity].
Qed.

Lemma name_is_last (rel_path : Path) :
  rel_path <> [] -> forallb valid_part rel_path = true ->
  name rel_path = last rel_path "".
Proof.
  intros Hne H. pose proof (last_valid rel_path Hne H) as Hv.
  unfold name. destruct (String.eqb_spec (last rel_path "") "/") as [E|_]; [|reflexivity].
  rewrite E in Hv. discriminate.
Qed.

Lemma last_is_part (rel_path : Path) :
  rel_path <> [] -> existsb (String.eqb (last rel_path "")) rel_path = true.
Proof.
  induction rel_path as [|x rest IH]; intros Hne; [contradiction|].
  destruct rest as [|y rest'].
  - cbn. rewrite String.eqb_refl. reflexivity.
  - change (last (x :: y :: rest') "") with (last (y :: rest') "").
    assert (IH' := IH ltac:(discriminate)).
    set (l := (y :: rest')) in *.
    cbn [existsb]. rewrite IH'. apply orb_true_r.
Qed.

Lemma str_of_valid (rel_path : Path) :
  rel_path <> [] -> forallb valid_part rel_path = true ->
  PathLib.str rel_path = join "/" rel_path.
Proof.
  intros Hne H. destruct rel_path as [|x rest]; [contradiction|].
  cbn [forallb] in H. apply andb_true_iff in H. destruct H as [Hx _].
  unfold PathLib.str.
  destruct (String.eqb_spec x "/") as [->|_]; [discriminate | reflexivity].
Qed.

(** A prefix that ends with the first slash is the first part. *)
Lemma prefix_is_first_part (d x t : string) :
  contains "/" d = false -> contains "/" x = false ->
  t = "" \/ (exists t', t = String "/" t') ->
  String.prefix (d ++ "/") (x ++ t) = true -> d = x.
Proof.
  revert x. induction d as [|c d' IH]; intros x Hd Hx Ht H.
  - destruct x as [|a x']; [reflexivity|].
    cbn [contains] in Hx. apply orb_false_iff in Hx. destruct Hx as [Ha _].
    cbn [append String.prefix] in H.
    destruct (ascii_dec "/" a) as [<- | _]; discriminate.
  - cbn [contains] in Hd. apply orb_false_iff in Hd. destruct Hd as [Hc Hd'].
    destruct x as [|a x'].
    + destruct Ht as [-> | [t' ->]]; cbn [append String.prefix] in H; [discriminate|].
      destruct (ascii_dec c "/") as [-> | _]; discriminate.
    + cbn [contains] in Hx. apply orb_false_iff in Hx. destruct Hx as [_ Hx'].
      cbn [append String.prefix] in H.
      destruct (ascii_dec c a) as [-> | _]; [|discriminate].
      f_equal. exact (IH x' Hd' Hx' Ht H).
Qed.

Lemma no_part_with_slash (rel_path : Path) (d : string) :
  forallb valid_part rel_path = true -> contains "/" d = true ->
  existsb (String.eqb d) rel_path = false.
Proof.
  induction rel_path as [|x rest IH]; intros H Hd; [reflexivity|].
  cbn [forallb] in H. apply andb_true_iff in H. destruct H as [Hx Hrest].
  cbn [existsb]. rewrite (IH Hrest Hd), orb_false_r.
  destruct (String.eqb_spec d x) as [->|_]; [|reflexivity].
  unfold valid_part in Hx. rewrite Hd in Hx. rewrite andb_false_r in Hx. discriminate.
Qed.

Section OnePattern.

Variables repo_root rel_path : Path.
Hypothesis Hnonempty : rel_path <> [].
Hypothesis Hvalid : forallb valid_part rel_path = true.

Lemma should_ignore_one (pattern : string) :
  should_ignore (repo_root ++ rel_path)%list repo_root [pattern]
  = Return (pattern_ignores (name rel_path) (PathLib.str rel_path) rel_path pattern).
Proof.
  rewrite should_ignore_under by exact Hnonempty.
  cbn [existsb]. rewrite orb_false_r. reflexivity.
Qed.

Lemma bare_name_rule (pattern : string) :
  contains "/" pattern = false ->
  contains "*" pattern = false ->
  pattern_ignores (name rel_path) (PathLib.str rel_path) rel_path pattern
  = existsb (String.eqb pattern) rel_path.
Proof.
  intros Hslash Hstar. unfold pattern_ignores. cbv zeta.
  rewrite (rstrip_id "/" pattern) by (apply (not_endswith "/"); [exact Hslash | reflexivity]).
  rewrite (not_endswith "/" pattern "/**" Hslash eq_refl).
  rewrite (not_endswith "/" pattern "/" Hslash eq_refl).
  rewrite (star_dot_prefix pattern Hstar), Hslash, Hstar. cbn [orb andb negb].
  destruct (existsb (String.eqb pattern) rel_path) eqn:E; [reflexivity|].
  rewrite (name_is_last rel_path Hnonempty Hvalid).
  destruct (String.eqb_spec (last rel_path "") pattern) as [<- | _]; [|reflexivity].
  rewrite (last_is_part rel_path Hnonempty) in E. discriminate.
Qed.

Lemma directory_rule (d : string) :
  endswith d "/" = false ->
  endswith d "*" = false ->
  pattern_ignores (name rel_path) (PathLib.str rel_path) rel_path (d ++ "/")
  = existsb (String.eqb d) rel_path || startswith (PathLib.str rel_path) (d ++ "/").
Proof.
  intros Hslash Hstar. unfold pattern_ignores. cbv zeta.
  rewrite (endswith_app d "/"), orb_true_r.
  rewrite rstrip_app_char, (rstrip_id "/" d Hslash), (rstrip_id "*" d Hstar),
    (rstrip_id "/" d Hslash).
  destruct (existsb (String.eqb d) rel_path); reflexivity.
Qed.

End OnePattern.

(** A pattern without slash and star ignores a file exactly when one
    part of its path below the root, directory or base name, is the
    pattern itself. *)
Theorem bare_name_pattern (repo_root rel_path : Path) (pattern : string) :
  rel_path <> [] ->
  forallb valid_part rel_path = true ->
  contains "/" pattern = false ->
  contains "*" pattern = false ->
  should_ignore (repo_root ++ rel_path)%list repo_root [pattern]
  = Return (existsb (String.eqb pattern) rel_path).
Proof.
  intros Hne Hvalid Hslash Hstar.
  rewrite should_ignore_one by exact Hne.
  rewrite bare_name_rule by assumption. reflexivity.
Qed.

Lemma bare_name_pattern_witness :
  should_ignore ["/"; "r"; "web"; "node_modules"; "x.js"] ["/"; "r"] ["node_modules"]
  = Return true.
Proof.
  refine (eq_trans (bare_name_pattern ["/"; "r"] ["web"; "node_modules"; "x.js"]
                                      "node_modules" _ _ _ _) _);
    try reflexivity. discriminate.
Defined.

(** A directory pattern [d/] whose name [d] has no slash and no star
    ignores a file exactly when one part of its path below the root is
    [d], at any depth. *)
Theorem directory_pattern_anywhere (repo_root rel_path : Path) (d : string) :
  rel_path <> [] ->
  forallb valid_part rel_path = true ->
  contains "/" d = false ->
  contains "*" d = false ->
  should_ignore (repo_root ++ rel_path)%list repo_root [d ++ "/"]
  = Return (existsb (String.eqb d) rel_path).
Proof.
  intros Hne Hvalid Hslash Hstar.
  rewrite should_ignore_one by exact Hne.
  rewrite directory_rule
    by (apply (not_endswith "/" d "/" Hslash eq_refl)
        || apply (not_endswith "*" d "*" Hstar eq_refl)).
  f_equal.
  destruct (existsb (String.eqb d) rel_path) eqn:E; [reflexivity|].
  cbn [orb]. destruct (startswith (PathLib.str rel_path) (d ++ "/")) eqn:Hpre;
    [|reflexivity].
  exfalso. rewrite (str_of_valid rel_path Hne Hvalid) in Hpre.
  destruct rel_path as [|x rest]; [contradiction|].
  cbn [forallb] in Hvalid. apply andb_true_iff in Hvalid. destruct Hvalid as [Hx _].
  unfold valid_part in Hx. apply andb_true_iff in Hx. destruct Hx as [_ Hx].
  apply negb_true_iff in Hx.
  assert (Hd : d = x).
  { unfold startswith, join in Hpre.
    destruct rest as [|y rest'].
    - cbn [String.concat] in Hpre. rewrite <- (append_nil_r x) in Hpre.
      apply (prefix_is_first_part d x "" Hslash Hx); [left; reflexivity | exact Hpre].
    - cbn [String.concat] in Hpre.
      apply (prefix_is_first_part d x _ Hslash Hx) in Hpre; [exact Hpre|].
      right. eexists. reflexivity. }
  subst x. cbn [existsb] in E. rewrite String.eqb_refl in E. discriminate.
Qed.

Lemma directory_pattern_anywhere_witness :
  should_ignore ["/"; "r"; "pkg"; "dist"; "x.js"] ["/"; "r"] ["dist/"] = Return true.
Proof.
  refine (eq_trans (directory_pattern_anywhere ["/"; "r"] ["pkg"; "dist"; "x.js"]
                                               "dist" _ _ _ _) _);
    try reflexivity. discriminate.
Defined.

(** A directory pattern [d/] whose name [d] holds a slash is tied to the
    root: it ignores a file exactly when the path of the file below the
    root starts with [d/]; the same directories deeper in the tree are
    not ignored. *)
Theorem nested_directory_pattern_at_root (repo_root rel_path : Path) (d : string) :
  rel_path <> [] ->
  forallb valid_part rel_path = true ->
  contains "/" d = true ->
  endswith d "/" = false ->
  endswith d "*" = false ->
  should_ignore (repo_root ++ rel_path)%list repo_root [d ++ "/"]
  = Return (startswith (PathLib.str rel_path) (d ++ "/")).
Proof.
  intros Hne Hvalid Hin Hslash Hstar.
  rewrite should_ignore_one by exact Hne.
  rewrite directory_rule by assumption.
  rewrite (no_part_with_slash rel_path d Hvalid Hin). reflexivity.
Qed.

Lemma nested_directory_pattern_at_root_witness :
  should_ignore ["/"; "r"; "src"; "gen"; "x.go"] ["/"; "r"] ["src/gen/"] = Return true
  /\ should_ignore ["/"; "r"; "lib"; "src"; "gen"; "x.go"] ["/"; "r"] ["src/gen/"]
     = Return false.
Proof.
  split.
  - refine (eq_trans (nested_directory_pattern_at_root ["/"; "r"] ["src"; "gen"; "x.go"]
                                                       "src/gen" _ _ _ _ _) _);
      try reflexivity. discriminate.
  - refine (eq_trans (nested_directory_pattern_at_root
                        ["/"; "r"] ["lib"; "src"; "gen"; "x.go"] "src/gen" _ _ _ _ _) _);
      try reflexivity. discriminate.
Defined.

(** Patterns only add: a file that some patterns ignore stays ignored
    when more patterns are put before or after them. *)
Theorem more_patterns_ignore_more
        (file_path repo_root : Path) (patterns more : list string) :
  should_ignore file_path repo_root patterns = Return true ->
  should_ignore file_path repo_root (patterns ++ more)%list = Return true
  /\ should_ignore file_path repo_root (more ++ patterns)%list = Return true.
Proof.
  unfold should_ignore.
  destruct (relative_to file_path repo_root) as [rel_path|]; [|discriminate].
  intros H. injection H as H.
  rewrite !existsb_app, H. split; [reflexivity|].
  rewrite orb_true_r. reflexivity.
Qed.

Lemma more_patterns_ignore_more_witness :
  should_ignore ["/"; "r"; "build"; "x.go"] ["/"; "r"] ["build/"; "*.log"] = Return true
  /\ should_ignore ["/"; "r"; "build"; "x.go"] ["/"; "r"] ["*.log"; "build/"] = Return true.
Proof.
  apply (more_patterns_ignore_more ["/"; "r"; "build"; "x.go"] ["/"; "r"]
                                   ["build/"] ["*.log"]).
  reflexivity.
Defined.

(** ** Extension patterns *)

Lemma translate_plain (s : string) (fuel : nat) :
  contains "*" s = false -> contains "?" s = false -> contains "[" s = false ->
  String.length s <= fuel ->
  Fnmatch.translate_from fuel (list_ascii_of_string s)
  = map Fnmatch.Char (list_ascii_of_string s).
Proof.
  revert fuel. induction s as [|a s' IH]; intros fuel Hstar Hq Hb Hlen.
  - destruct fuel; reflexivity.
  - destruct fuel as [|fuel']; [cbn in Hlen; lia|].
    cbn [contains] in Hstar, Hq, Hb.
    apply orb_false_iff in Hstar, Hq, Hb.
    destruct Hstar as [Ha1 Hs1]. destruct Hq as [Ha2 Hs2]. destruct Hb as [Ha3 Hs3].
    cbn [list_ascii_of_string map Fnmatch.translate_from].
    rewrite Ha1, Ha2, Ha3. f_equal.
    apply IH; try assumption. cbn in Hlen. lia.
Qed.

(** Tokens that are plain characters match one string, their own. *)
Lemma glob_plain (s x : string) :
  Fnmatch.glob (map Fnmatch.Char (list_ascii_of_string s)) x = String.eqb x s.
Proof.
  revert x. induction s as [|a s' IH]; intros x.
  - destruct x; reflexivity.
  - destruct x as [|b x']; [reflexivity|].
    cbn [list_ascii_of_string map Fnmatch.glob]. rewrite IH. cbn [String.eqb].
    destruct (Ascii.eqb b a); reflexivity.
Qed.

Lemma glob_star (toks : list Fnmatch.tok) (x : string) :
  Fnmatch.glob (Fnmatch.Star :: toks) x =
  Fnmatch.glob toks x
  || match x with
     | "" => false
     | String _ x' => Fnmatch.glob (Fnmatch.Star :: toks) x'
     end.
Proof. destruct x; reflexivity. Qed.

(** A star followed by plain characters matches the names that end with
    these characters. *)
Lemma fnmatch_star_plain (x lit : string) :
  contains "*" lit = false -> contains "?" lit = false -> contains "[" lit = false ->
  Fnmatch.fnmatch x (String "*" lit) = endswith x lit.
Proof.
  intros Hstar Hq Hb. unfold Fnmatch.fnmatch, Fnmatch.translate.
  cbn [String.length list_ascii_of_string Fnmatch.translate_from].
  change (Ascii.eqb "*" "*") with true. cbv iota.
  rewrite (translate_plain lit (String.length lit) Hstar Hq Hb (le_n _)).
  induction x as [|b x' IH].
  - rewrite glob_star, glob_plain. cbn [endswith]. reflexivity.
  - rewrite glob_star, glob_plain, IH. rewrite endswith_cons. reflexivity.
Qed.

(** An extension pattern [*.ext] whose [ext] has no slash and no wild
    card ignores a file exactly when its base name ends with [.ext],
    wherever the file is below the root. *)
Theorem extension_pattern (repo_root rel_path : Path) (ext : string) :
  rel_path <> [] ->
  contains "/" ext = false ->
  contains "*" ext = false ->
  contains "?" ext = false ->
  contains "[" ext = false ->
  should_ignore (repo_root ++ rel_path)%list repo_root ["*." ++ ext]
  = Return (endswith (name rel_path) ("." ++ ext)).
Proof.
  intros Hne Hslash Hstar Hq Hb.
  rewrite should_ignore_under by exact Hne.
  cbn [existsb]. rewrite orb_false_r. f_equal.
  assert (Hp : contains "/" ("*." ++ ext) = false) by (cbn; exact Hslash).
  unfold pattern_ignores. cbv zeta.
  rewrite (rstrip_id "/" ("*." ++ ext))
    by (apply (not_endswith "/"); [exact Hp | reflexivity]).
  rewrite (not_endswith "/" _ "/**" Hp eq_refl), (not_endswith "/" _ "/" Hp eq_refl).
  cbn [orb].
  replace (startswith ("*." ++ ext) "*.") with true
    by (unfold startswith; cbn; destruct ext; reflexivity).
  change ("*." ++ ext) with (String "*" ("." ++ ext)).
  apply fnmatch_star_plain; cbn; assumption.
Qed.

Lemma extension_pattern_witness :
  should_ignore ["/"; "r"; "logs"; "run.log"] ["/"; "r"] ["*.log"] = Return true
  /\ should_ignore ["/"; "r"; "logs"; "run.log.py"] ["/"; "r"] ["*.log"] = Return false.
Proof.
  split.
  - refine (eq_trans (extension_pattern ["/"; "r"] ["logs"; "run.log"] "log" _ _ _ _ _) _);
      try reflexivity. discriminate.
  - refine (eq_trans (extension_pattern ["/"; "r"] ["logs"; "run.log.py"] "log" _ _ _ _ _) _);
      try reflexivity. discriminate.
Defined.

(** ** Headers written and read back *)

(** For a comment syntax of the table and years from 1000 to 9999, the
    header line that [format_copyright_line] writes is one line, and the
    pattern reads from it the two years it was written with. *)
Theorem header_round_trip (ext comment_prefix : string) (start_year end_year : Z) :
  PyDict.get COMMENT_SYNTAX ext = Some comment_prefix ->
  (1000 <= start_year <= 9999)%Z ->
  (1000 <= end_year <= 9999)%Z ->
  search_years (format_copyright_line comment_prefix start_year end_year)
  = Some (start_year, end_year)
  /\ contains nl (format_copyright_line comment_prefix start_year end_year) = false.
Proof.
  intros Hsyn Hs He.
  pose proof (comment_syntax_values _ _ Hsyn) as Htoken.
  pose proof (year_four_digits _ Hs) as Hs4.
  pose proof (year_four_digits _ He) as He4.
  split; [apply search_header | apply header_clean]; assumption.
Qed.

Lemma header_round_trip_witness :
  search_years (format_copyright_line "<!--" 1999 2025) = Some (1999, 2025)%Z
  /\ contains nl (format_copyright_line "<!--" 1999 2025) = false.
Proof.
  apply (header_round_trip ".html" "<!--" 1999 2025); [reflexivity | lia | lia].
Defined.

(** The years read from a line are between 0 and 9999, whatever the
    line. *)
Theorem parsed_years_bounds (line : string) (start_year end_year : Z) :
  search_years line = Some (start_year, end_year) ->
  (0 <= start_year <= 9999)%Z /\ (0 <= end_year <= 9999)%Z.
Proof. apply search_years_range. Qed.

Lemma parsed_years_bounds_witness :
  (0 <= 21 <= 9999)%Z /\ (0 <= 2023 <= 9999)%Z.
Proof.
  apply (parsed_years_bounds
           "# Copyright 0021-2023 Hewlett Packard Enterprise Development LP" 21 2023).
  reflexivity.
Defined.

(** [reconcile] returns on every content, prefix and year (the assignment
    to [lines[0]] never fails), and it asks for a write exactly when its
    status is not [ok]. *)
Theorem reconcile_result (content comment_prefix : string) (current_year : Z) :
  exists res new_content,
    reconcile content comment_prefix current_year = Return (res, new_content)
    /\ (new_content = None <-> result_status res = ok).
Proof.
  destruct (reconcile_returns content comment_prefix current_year) as [[res new_content] H].
  exists res, new_content. split; [exact H|].
  destruct (reconcile_status _ _ _ _ _ H) as [[Hn Hs] | [Hn Hs]].
  - split; intros _; assumption.
  - split; intros H'; [contradiction|].
    destruct Hs as [Hs | Hs]; rewrite Hs in H'; discriminate.
Qed.
